(** * RFID access control: the credential state machine and its EEPROM whitelist

    A shallow embedding of the Arduino sketch [Rfid_Master4_V1.ino] and of the
    sleep-enabled listing of the same sketch in [README.md].  The target is an
    Arduino Nano (AVR): [int] is a 16-bit two's complement integer, [byte] and
    EEPROM cells are 8-bit, and [unsigned long] (the type of [millis()]) is
    32-bit. *)

From Stdlib Require Import ZArith Lia List Bool.
From Stdlib.Strings Require Import String Byte.
From stdpp Require Import base list.
Import ListNotations.

Local Open Scope Z_scope.

(** ** Machine integers *)

(** Value of an 8-bit cell once promoted to [int]. *)
Definition byte_val (b : byte) : Z := Z.of_N (Byte.to_N b).

(** Conversion [int -> uint8_t], as performed on the [val] argument of
    [EEPROM.write(int idx, uint8_t val)]: the value modulo 256. *)
Definition to_uint8 (z : Z) : byte :=
  match Byte.of_N (Z.to_N (z mod 256)) with
  | Some b => b
  | None => x00
  end.

(** A 16-bit [int] holds [-32768 .. 32767]; arithmetic wraps around. *)
Definition int_wrap (z : Z) : Z := (z + 32768) mod 65536 - 32768.

(** [unsigned long] arithmetic is modulo 2^32. *)
Definition ulong_wrap (z : Z) : Z := z mod 4294967296.

(** ** Configuration constants (lines 7-10 of the sketch) *)

Definition MASTER_UID1 : Z := 43.
Definition MASTER_UID2 : Z := 98.
Definition MASTER_UID3 : Z := 123.
Definition MASTER_UID4 : Z := 456.

(** ** The credential reducer (lines 42-46 of the sketch)

    A raw identifier is the sequence [uid.uidByte[0 .. uid.size-1]] that the
    reader driver filled in. *)

Abbreviation Uid := (list byte).

(** The reader driver's [Uid] buffer is [byte uidByte[10]]: a raw identifier
    has at most ten bytes. *)
Definition uid_ok (uid : Uid) : Prop := (length uid <= 10)%nat.

(** [for (byte i = 0; i < uid.size; i++) uidSum += uid.uidByte[i];]
    with [uidSum] the running value of the [int] accumulator. *)
Fixpoint uidSum_loop (uidSum : Z) (uidByte : Uid) : Z :=
  match uidByte with
  | [] => uidSum
  | b :: rest => uidSum_loop (int_wrap (uidSum + byte_val b)) rest
  end.

(** [int uidSum = 0; for ...] *)
Definition uidSum (uid : Uid) : Z := uidSum_loop 0 uid.

(** [int shrunkUID = uidSum % 100;]  C's [%] truncates toward zero. *)
Definition shrunkUID (uid : Uid) : Z := Z.rem (uidSum uid) 100.

(** The reducer in the words of the specification: the sum of all bytes,
    reduced modulo 100. *)
Definition byte_sum (r : Uid) : Z := fold_right (fun b acc => byte_val b + acc) 0 r.
Definition spec_reduce (r : Uid) : Z := byte_sum r mod 100.

(** [shrunkUID == MASTER_UID1 || ... || shrunkUID == MASTER_UID4] *)
Definition is_master (shrunk : Z) : bool :=
  (shrunk =? MASTER_UID1) || (shrunk =? MASTER_UID2)
  || (shrunk =? MASTER_UID3) || (shrunk =? MASTER_UID4).

(** ** The EEPROM: a fixed-size array of bytes

    [EEPROM.length()] is the length of the list.  It is [E2END + 1], at most
    4096 on AVR parts, so the [int] loop index of the two scans never wraps
    and is kept as a plain [Z]. *)

Definition EEPROM_length (E : list byte) : Z := Z.of_nat (length E).

Definition EEPROM_read (E : list byte) (idx : Z) : Z :=
  byte_val (default x00 (E !! Z.to_nat idx)).

Definition EEPROM_write (E : list byte) (idx : Z) (val : Z) : list byte :=
  <[Z.to_nat idx := to_uint8 val]> E.

(** [for (int i = ...; i < EEPROM.length(); i++)
       if (EEPROM.read(i) == 0) return i;
     return -1;]
    [n] counts the iterations left, [EEPROM.length() - i]. *)
Fixpoint findEmptyEEPROMAddress_loop (E : list byte) (i : Z) (n : nat) : Z :=
  match n with
  | O => -1
  | S n' =>
      if EEPROM_read E i =? 0 then i
      else findEmptyEEPROMAddress_loop E (i + 1) n'
  end.

Definition findEmptyEEPROMAddress (E : list byte) : Z :=
  findEmptyEEPROMAddress_loop E 0 (length E).

(** [for (int i = ...; i < EEPROM.length(); i++)
       if (EEPROM.read(i) == uid) return i;
     return -1;] *)
Fixpoint findEEPROMAddress_loop (E : list byte) (uid : Z) (i : Z) (n : nat) : Z :=
  match n with
  | O => -1
  | S n' =>
      if EEPROM_read E i =? uid then i
      else findEEPROMAddress_loop E uid (i + 1) n'
  end.

Definition findEEPROMAddress (E : list byte) (uid : Z) : Z :=
  findEEPROMAddress_loop E uid 0 (length E).

(** ** Outputs, pins and the controller state *)

Inductive Pin := RELAY_PIN | GREEN_LED_PIN | RED_LED_PIN | YELLOW_LED_PIN.
Inductive Level := LOW | HIGH.

(** Everything the sketch does to the outside world, in program order. *)
Inductive Action :=
| Serial_print (msg : string)
| Serial_println (msg : string)
| Serial_println_int (n : Z)
| DigitalWrite (p : Pin) (v : Level)
| Delay (ms : Z)
| PICC_HaltA
| PCD_StopCrypto1
| Set_sleep_mode_PWR_DOWN
| Sleep_enable
| AttachInterrupt_wakeUp
| Sleep_cpu
| Sleep_disable
| DetachInterrupt.

Record Pins := mkPins {
  relay : Level;
  green_led : Level;
  red_led : Level;
  yellow_led : Level
}.

Record State := mkState {
  manageMode : bool;          (* volatile bool manageMode *)
  activityFlag : bool;        (* volatile bool activityFlag (README listing) *)
  lastActivityTime : Z;       (* unsigned long lastActivityTime (README listing) *)
  EEPROM : list byte;         (* the persistent byte store *)
  pins : Pins;                (* levels last written to the four outputs *)
  trace : list Action         (* actions performed so far, oldest first *)
}.

(** *** A small state monad for the statements of the sketch *)

Definition M (A : Type) : Type := State -> A * State.

Definition ret {A} (a : A) : M A := fun s => (a, s).
Definition bind {A B} (m : M A) (k : A -> M B) : M B :=
  fun s => let (a, s') := m s in k a s'.
Definition gets {A} (f : State -> A) : M A := fun s => (f s, s).
Definition modify (f : State -> State) : M unit := fun s => (tt, f s).
Definition exec {A} (m : M A) (s : State) : State := snd (m s).

Declare Scope prog_scope.
Delimit Scope prog_scope with prog.
Notation "x <- m ;; k" := (bind m (fun x => k))
  (at level 100, m at next level, k at level 200, right associativity) : prog_scope.
Notation "m ;; k" := (bind m (fun _ => k))
  (at level 100, k at level 200, right associativity) : prog_scope.
(** *** Primitive statements *)

Definition emit (a : Action) : M unit :=
  modify (fun s => mkState (manageMode s) (activityFlag s) (lastActivityTime s)
                           (EEPROM s) (pins s) (trace s ++ [a])).

Definition set_pin (p : Pin) (v : Level) (ps : Pins) : Pins :=
  match p with
  | RELAY_PIN => mkPins v (green_led ps) (red_led ps) (yellow_led ps)
  | GREEN_LED_PIN => mkPins (relay ps) v (red_led ps) (yellow_led ps)
  | RED_LED_PIN => mkPins (relay ps) (green_led ps) v (yellow_led ps)
  | YELLOW_LED_PIN => mkPins (relay ps) (green_led ps) (red_led ps) v
  end.

Definition digitalWrite (p : Pin) (v : Level) : M unit :=
  modify (fun s => mkState (manageMode s) (activityFlag s) (lastActivityTime s)
                           (EEPROM s) (set_pin p v (pins s))
                           (trace s ++ [DigitalWrite p v])).

Definition delay (ms : Z) : M unit := emit (Delay ms).

Definition set_manageMode (b : bool) : M unit :=
  modify (fun s => mkState b (activityFlag s) (lastActivityTime s)
                           (EEPROM s) (pins s) (trace s)).

Definition set_activityFlag (b : bool) : M unit :=
  modify (fun s => mkState (manageMode s) b (lastActivityTime s)
                           (EEPROM s) (pins s) (trace s)).

Definition set_lastActivityTime (t : Z) : M unit :=
  modify (fun s => mkState (manageMode s) (activityFlag s) t
                           (EEPROM s) (pins s) (trace s)).

(** [EEPROM.write(idx, val)] *)
Definition EEPROM_write_stmt (idx val : Z) : M unit :=
  modify (fun s => mkState (manageMode s) (activityFlag s) (lastActivityTime s)
                           (EEPROM_write (EEPROM s) idx val) (pins s) (trace s)).

(** ** The body of [loop()] that runs once a card has been read

    Lines 41-119 of the sketch, identical (up to layout) to lines 161-233 of
    the README listing. *)

Local Open Scope prog_scope.

Definition loop_card (uid : Uid) : M unit :=
  emit (Serial_print "Card UID: ") ;;
  let shrunk := shrunkUID uid in
  emit (Serial_println_int shrunk) ;;
  (if is_master shrunk then
     inManage <- gets manageMode ;;
     if inManage then
       emit (Serial_println "Master card detected again. Exiting manage mode...") ;;
       set_manageMode false ;;
       digitalWrite RED_LED_PIN LOW
     else
       emit (Serial_println "Master card detected. Entering manage mode...") ;;
       set_manageMode true ;;
       digitalWrite RED_LED_PIN HIGH ;;
       digitalWrite GREEN_LED_PIN HIGH ;;
       digitalWrite RELAY_PIN HIGH ;;
       delay 3000 ;;
       digitalWrite RELAY_PIN LOW ;;
       digitalWrite GREEN_LED_PIN LOW
   else
     inManage <- gets manageMode ;;
     if inManage then
       existingAddress <- gets (fun s => findEEPROMAddress (EEPROM s) shrunk) ;;
       (if negb (existingAddress =? -1) then
          EEPROM_write_stmt existingAddress 0 ;;
          emit (Serial_println "Scanned UID removed from EEPROM.") ;;
          digitalWrite YELLOW_LED_PIN HIGH ;;
          delay 100 ;;
          digitalWrite YELLOW_LED_PIN LOW
        else
          emptyAddress <- gets (fun s => findEmptyEEPROMAddress (EEPROM s)) ;;
          if negb (emptyAddress =? -1) then
            EEPROM_write_stmt emptyAddress shrunk ;;
            emit (Serial_print "New card added to EEPROM at address ") ;;
            emit (Serial_println_int emptyAddress) ;;
            digitalWrite YELLOW_LED_PIN HIGH ;;
            delay 1000 ;;
            digitalWrite YELLOW_LED_PIN LOW
          else
            emit (Serial_println "EEPROM is full. Cannot add more cards.")) ;;
       set_manageMode false ;;
       digitalWrite RED_LED_PIN LOW
     else
       found <- gets (fun s => findEEPROMAddress (EEPROM s) shrunk) ;;
       if negb (found =? -1) then
         emit (Serial_println "Access granted.") ;;
         digitalWrite GREEN_LED_PIN HIGH ;;
         digitalWrite RELAY_PIN HIGH ;;
         delay 3000 ;;
         digitalWrite RELAY_PIN LOW ;;
         digitalWrite GREEN_LED_PIN LOW
       else
         emit (Serial_println "Access denied.") ;;
         digitalWrite RED_LED_PIN HIGH ;;
         delay 2000 ;;
         digitalWrite RED_LED_PIN LOW) ;;
  emit PICC_HaltA ;;
  emit PCD_StopCrypto1.

(** The globals at power-on, on a device whose EEPROM holds [E]:
    [manageMode = false], [activityFlag = false], [lastActivityTime = 0]. *)
Definition power_on (E : list byte) : State :=
  mkState false false 0 E (mkPins LOW LOW LOW LOW) [].

(** ** [Rfid_Master4_V1.ino] *)

Module Sketch.

(** [setup()], lines 20-35: the writes to the pins and the banner. *)
Definition setup : M unit :=
  digitalWrite RELAY_PIN LOW ;;
  digitalWrite GREEN_LED_PIN LOW ;;
  digitalWrite RED_LED_PIN LOW ;;
  digitalWrite YELLOW_LED_PIN LOW ;;
  emit (Serial_println "Scan RFID tag...").

(** One iteration of [loop()].  [card] is [Some uid] when
    [PICC_IsNewCardPresent() && PICC_ReadCardSerial()] holds. *)
Definition loop (card : option Uid) : M unit :=
  match card with
  | Some uid => loop_card uid
  | None => ret tt
  end.

(** Successive iterations of [loop()]. *)
Definition run (cards : list (option Uid)) (s : State) : State :=
  fold_left (fun st card => exec (loop card) st) cards s.

End Sketch.

(** ** The README listing: the same sketch with the inactivity sleep *)

Module Readme.

(** The interrupt handler. *)
Definition wakeUp : M unit := set_activityFlag true.

(** [setup()], lines 133-150 of the README. *)
Definition setup : M unit :=
  digitalWrite RELAY_PIN LOW ;;
  digitalWrite GREEN_LED_PIN LOW ;;
  digitalWrite RED_LED_PIN LOW ;;
  digitalWrite YELLOW_LED_PIN LOW ;;
  emit AttachInterrupt_wakeUp ;;
  emit (Serial_println "Scan RFID tag...").

(** [sleep_cpu()] returns when the wake interrupt has fired, that is after
    [wakeUp] has run. *)
Definition goToSleep : M unit :=
  emit (Serial_println "Going to sleep...") ;;
  emit Set_sleep_mode_PWR_DOWN ;;
  emit Sleep_enable ;;
  emit AttachInterrupt_wakeUp ;;
  emit Sleep_cpu ;;
  wakeUp ;;
  emit Sleep_disable ;;
  emit DetachInterrupt ;;
  emit (Serial_println "Waking up...").

(** [millis() - lastActivityTime >= 1800000], in [unsigned long]. *)
Definition inactive (now last : Z) : bool :=
  1800000 <=? ulong_wrap (now - last).

(** One iteration of [loop()].  [now] is the value [millis()] returns at
    the inactivity test; [card] is [Some (t, uid)] when a card was read,
    with [t] the value [millis()] returns at the refresh of
    [lastActivityTime]. *)
Definition loop (now : Z) (card : option (Z * Uid)) : M unit :=
  last <- gets lastActivityTime ;;
  (if inactive now last then goToSleep else ret tt) ;;
  match card with
  | Some (t, uid) =>
      set_activityFlag true ;;
      set_lastActivityTime t ;;
      loop_card uid
  | None => ret tt
  end.

(** Successive iterations of [loop()]. *)
Definition run (its : list (Z * option (Z * Uid))) (s : State) : State :=
  fold_left (fun st it => exec (loop (fst it) (snd it)) st) its s.

End Readme.

(** ** Notions used to state the properties *)

(** Store exclusivity: no code other than the sentinel occupies two slots. *)
Definition exclusive (E : list byte) : Prop :=
  forall (i j : nat) (b : byte),
    i <> j -> E !! i = Some b -> E !! j = Some b -> b = x00.

(** Every card of a run fits the reader's identifier buffer. *)
Definition cards_ok (cards : list (option Uid)) : Prop :=
  forall uid, In (Some uid) cards -> uid_ok uid.

(** [millis()] read [T] milliseconds after boot: the 32-bit counter. *)
Definition millis (T : Z) : Z := ulong_wrap T.

(** An iteration of the README loop described by the true times (in
    milliseconds since boot) of its clock readings, turned into what the
    sketch reads. *)
Definition at_times (it : Z * option (Z * Uid)) : Z * option (Z * Uid) :=
  (millis (fst it),
   match snd it with
   | Some (T, uid) => Some (millis T, uid)
   | None => None
   end).

(** Cards arrive more often than the threshold: time never runs backwards
    and every inactivity test happens less than 30 minutes after the latest
    refresh of the timestamp ([last], initially the boot time). *)
Fixpoint timely (last : Z) (its : list (Z * option (Z * Uid))) : Prop :=
  match its with
  | [] => True
  | (T, card) :: rest =>
      last <= T /\ T - last < 1800000
      /\ match card with
         | None => timely last rest
         | Some (T', _) => T <= T' /\ timely T' rest
         end
  end.

(** A cell of the store holds the code [c]. *)
Definition stored (E : list byte) (c : Z) : Prop :=
  exists b, In b E /\ byte_val b = c.

(** No cell holds a code that passes the master test. *)
Definition no_master_cell (E : list byte) : Prop :=
  forall b, In b E -> is_master (byte_val b) = false.

(** The outputs between two iterations: relay, green and yellow LED off,
    red LED on exactly in Manage mode. *)
Definition at_rest (s : State) : Prop :=
  relay (pins s) = LOW /\ green_led (pins s) = LOW
  /\ yellow_led (pins s) = LOW
  /\ (red_led (pins s) = HIGH <-> manageMode s = true).

(** Milliseconds spent in [delay()] by a list of actions. *)
Fixpoint total_delay (l : list Action) : Z :=
  match l with
  | [] => 0
  | Delay ms :: rest => ms + total_delay rest
  | _ :: rest => total_delay rest
  end.

(** Every cell holds the sentinel or a credential code, a value in [0, 99]. *)
Definition codes_only (E : list byte) : Prop :=
  forall b, In b E -> byte_val b <= 99.

(** * Properties *)

Local Close Scope prog_scope.

(** ** Machine integers *)

Lemma byte_val_range (b : byte) : 0 <= byte_val b <= 255.
Proof.
  unfold byte_val. pose proof (Byte.to_N_bounded b). lia.
Qed.

Lemma byte_val_to_uint8 (z : Z) : 0 <= z < 256 -> byte_val (to_uint8 z) = z.
Proof.
  intros Hz. unfold to_uint8, byte_val.
  rewrite Z.mod_small by lia.
  destruct (Byte.of_N (Z.to_N z)) as [b|] eqn:Hb.
  - apply Byte.to_of_N in Hb. rewrite Hb. lia.
  - apply Byte.of_N_None_iff in Hb. lia.
Qed.

Lemma byte_val_inj (a b : byte) : byte_val a = byte_val b -> a = b.
Proof.
  unfold byte_val. intros H. apply N2Z.inj in H.
  assert (Some a = Some b) as Hs
    by (rewrite <- (Byte.of_to_N a), <- (Byte.of_to_N b), H; reflexivity).
  congruence.
Qed.

Lemma byte_val_zero (b : byte) : byte_val b = 0 <-> b = x00.
Proof.
  split.
  - intros H. apply byte_val_inj. rewrite H. reflexivity.
  - intros ->. reflexivity.
Qed.

Lemma to_uint8_byte_val (b : byte) : to_uint8 (byte_val b) = b.
Proof.
  apply byte_val_inj. apply byte_val_to_uint8.
  pose proof (byte_val_range b). lia.
Qed.

(** ** The reducer *)

Lemma byte_sum_bounds (r : Uid) : 0 <= byte_sum r <= 255 * Z.of_nat (length r).
Proof.
  induction r as [|b r IH]; cbn [byte_sum fold_right length].
  - lia.
  - fold (byte_sum r). pose proof (byte_val_range b). lia.
Qed.

(** As long as the total stays below [2^15] the [int] accumulator holds the
    exact sum. *)
Lemma uidSum_loop_exact (r : Uid) : forall acc,
  0 <= acc -> acc + 255 * Z.of_nat (length r) <= 32767 ->
  uidSum_loop acc r = acc + byte_sum r.
Proof.
  induction r as [|b r IH]; intros acc Hacc Hfit; cbn [uidSum_loop byte_sum fold_right].
  - lia.
  - fold (byte_sum r). pose proof (byte_val_range b) as Hb.
    cbn [length] in Hfit.
    assert (int_wrap (acc + byte_val b) = acc + byte_val b) as ->.
    { unfold int_wrap. rewrite Z.mod_small; lia. }
    rewrite IH; lia.
Qed.

Lemma uidSum_exact (r : Uid) : uid_ok r -> uidSum r = byte_sum r.
Proof.
  unfold uid_ok, uidSum. intros Hlen.
  rewrite uidSum_loop_exact; lia.
Qed.

Lemma shrunkUID_range (r : Uid) : uid_ok r -> 0 <= shrunkUID r <= 99.
Proof.
  intros Hok. unfold shrunkUID. rewrite (uidSum_exact r Hok).
  pose proof (byte_sum_bounds r) as [Hlo _].
  pose proof (Z.rem_bound_pos (byte_sum r) 100 Hlo ltac:(lia)). lia.
Qed.

(** Whatever the accumulator holds, [% 100] yields a value strictly between
    -100 and 100. *)
Lemma shrunkUID_abs (r : Uid) : -99 <= shrunkUID r <= 99.
Proof.
  unfold shrunkUID.
  pose proof (Z.rem_bound_abs (uidSum r) 100 ltac:(lia)). lia.
Qed.

Lemma shrunkUID_spec_reduce (r : Uid) : uid_ok r -> shrunkUID r = spec_reduce r.
Proof.
  intros Hok. unfold shrunkUID, spec_reduce. rewrite (uidSum_exact r Hok).
  apply Z.rem_mod_nonneg; [apply byte_sum_bounds | lia].
Qed.

(** ** The two scans of the EEPROM *)

Lemma EEPROM_read_lookup (E : list byte) (i : nat) (b : byte) :
  E !! i = Some b -> EEPROM_read E (Z.of_nat i) = byte_val b.
Proof.
  intros H. unfold EEPROM_read. rewrite Nat2Z.id, H. reflexivity.
Qed.

(** The scan for the sentinel is the scan for the code 0. *)
Lemma findEmpty_loop_as_find (E : list byte) (n : nat) : forall i,
  findEmptyEEPROMAddress_loop E i n = findEEPROMAddress_loop E 0 i n.
Proof.
  induction n as [|n IH]; intros i; cbn; [reflexivity|].
  rewrite IH. reflexivity.
Qed.

Lemma findEmpty_as_find (E : list byte) :
  findEmptyEEPROMAddress E = findEEPROMAddress E 0.
Proof. apply findEmpty_loop_as_find. Qed.

(** What the scan returns: either -1 and no visited cell holds [uid], or the
    first visited index whose cell holds [uid]. *)
Lemma findEEPROMAddress_loop_spec (E : list byte) (uid : Z) (n : nat) : forall i,
  let r := findEEPROMAddress_loop E uid i n in
  (r = -1 /\ forall k, i <= k < i + Z.of_nat n -> EEPROM_read E k <> uid)
  \/ (i <= r < i + Z.of_nat n /\ EEPROM_read E r = uid
      /\ forall k, i <= k < r -> EEPROM_read E k <> uid).
Proof.
  induction n as [|n IH]; intros i; cbn zeta; cbn [findEEPROMAddress_loop].
  - left. split; [reflexivity | intros k Hk; lia].
  - destruct (Z.eqb_spec (EEPROM_read E i) uid) as [Heq|Hne].
    + right. split; [lia|]. split; [exact Heq | intros k Hk; lia].
    + destruct (IH (i + 1)) as [[Hr Hall]|(Hr & Hhit & Hfirst)].
      * left. split; [exact Hr|]. intros k Hk.
        destruct (Z.eq_dec k i) as [->|]; [exact Hne | apply Hall; lia].
      * right. split; [lia|]. split; [exact Hhit|]. intros k Hk.
        destruct (Z.eq_dec k i) as [->|]; [exact Hne | apply Hfirst; lia].
Qed.

Lemma findEEPROMAddress_found (E : list byte) (uid : Z) :
  findEEPROMAddress E uid <> -1 ->
  exists i : nat,
    findEEPROMAddress E uid = Z.of_nat i /\ (i < length E)%nat
    /\ (exists b, E !! i = Some b /\ byte_val b = uid)
    /\ forall k b, (k < i)%nat -> E !! k = Some b -> byte_val b <> uid.
Proof.
  intros Hr. unfold findEEPROMAddress in *.
  destruct (findEEPROMAddress_loop_spec E uid (length E) 0)
    as [[Hnone _]|(Hrange & Hhit & Hfirst)]; [contradiction|].
  set (r := findEEPROMAddress_loop E uid 0 (length E)) in *.
  exists (Z.to_nat r). rewrite Z2Nat.id by lia.
  assert (Z.to_nat r < length E)%nat as Hlt by lia.
  split; [reflexivity|]. split; [exact Hlt|]. split.
  - destruct (lookup_lt_is_Some_2 E (Z.to_nat r) Hlt) as [b Hb].
    exists b. split; [exact Hb|].
    rewrite <- Hhit. unfold EEPROM_read. rewrite Hb. reflexivity.
  - intros k b Hk Hb. rewrite <- (EEPROM_read_lookup E k b Hb).
    apply Hfirst. lia.
Qed.

Lemma findEEPROMAddress_none (E : list byte) (uid : Z) :
  findEEPROMAddress E uid = -1 ->
  forall k b, E !! k = Some b -> byte_val b <> uid.
Proof.
  intros Hr k b Hb. unfold findEEPROMAddress in Hr.
  destruct (findEEPROMAddress_loop_spec E uid (length E) 0)
    as [[_ Hall]|(Hrange & _)]; [|lia].
  rewrite <- (EEPROM_read_lookup E k b Hb). apply Hall.
  apply lookup_lt_Some in Hb. lia.
Qed.

Lemma findEEPROMAddress_absent (E : list byte) (uid : Z) :
  (forall b, In b E -> byte_val b <> uid) -> findEEPROMAddress E uid = -1.
Proof.
  intros Habs.
  destruct (Z.eq_dec (findEEPROMAddress E uid) (-1)) as [|Hne]; [assumption|].
  destruct (findEEPROMAddress_found E uid Hne) as (i & _ & _ & (b & Hb & Hv) & _).
  exfalso. apply (Habs b); [|exact Hv].
  apply list_elem_of_In, list_elem_of_lookup. eauto.
Qed.

(** ** The six branches of the card handler

    Each lemma gives the complete state after [loop_card] in one branch. *)

(** Symbolic execution of the statements on a state given by its fields:
    call-by-value, so that every intermediate state is a record of values. *)
Ltac run_card :=
  cbv [exec loop_card bind gets ret delay emit digitalWrite
       set_manageMode set_activityFlag set_lastActivityTime
       EEPROM_write_stmt modify set_pin
       fst snd manageMode activityFlag lastActivityTime EEPROM pins trace
       relay green_led red_led yellow_led].

(** Replace the state by its fields and fix the mode. *)
Ltac open_state s Hmode :=
  destruct s as [mm af lt E [r g d y] tr];
  cbn [manageMode EEPROM] in *; subst mm.

Ltac flatten_trace :=
  repeat rewrite <- List.app_assoc; cbn [app].

Lemma loop_card_enter_manage (uid : Uid) (s : State) :
  is_master (shrunkUID uid) = true -> manageMode s = false ->
  exec (loop_card uid) s =
    mkState true (activityFlag s) (lastActivityTime s) (EEPROM s)
      (mkPins LOW LOW HIGH (yellow_led (pins s)))
      (trace s ++
       [Serial_print "Card UID: "; Serial_println_int (shrunkUID uid);
        Serial_println "Master card detected. Entering manage mode...";
        DigitalWrite RED_LED_PIN HIGH; DigitalWrite GREEN_LED_PIN HIGH;
        DigitalWrite RELAY_PIN HIGH; Delay 3000;
        DigitalWrite RELAY_PIN LOW; DigitalWrite GREEN_LED_PIN LOW;
        PICC_HaltA; PCD_StopCrypto1]).
Proof.
  intros Hm Hmode. open_state s Hmode.
  run_card. rewrite Hm. run_card. flatten_trace. reflexivity.
Qed.

Lemma loop_card_exit_manage (uid : Uid) (s : State) :
  is_master (shrunkUID uid) = true -> manageMode s = true ->
  exec (loop_card uid) s =
    mkState false (activityFlag s) (lastActivityTime s) (EEPROM s)
      (set_pin RED_LED_PIN LOW (pins s))
      (trace s ++
       [Serial_print "Card UID: "; Serial_println_int (shrunkUID uid);
        Serial_println "Master card detected again. Exiting manage mode...";
        DigitalWrite RED_LED_PIN LOW;
        PICC_HaltA; PCD_StopCrypto1]).
Proof.
  intros Hm Hmode. open_state s Hmode.
  run_card. rewrite Hm. run_card. flatten_trace. reflexivity.
Qed.

Lemma loop_card_remove (uid : Uid) (s : State) :
  is_master (shrunkUID uid) = false -> manageMode s = true ->
  findEEPROMAddress (EEPROM s) (shrunkUID uid) <> -1 ->
  exec (loop_card uid) s =
    mkState false (activityFlag s) (lastActivityTime s)
      (EEPROM_write (EEPROM s) (findEEPROMAddress (EEPROM s) (shrunkUID uid)) 0)
      (mkPins (relay (pins s)) (green_led (pins s)) LOW LOW)
      (trace s ++
       [Serial_print "Card UID: "; Serial_println_int (shrunkUID uid);
        Serial_println "Scanned UID removed from EEPROM.";
        DigitalWrite YELLOW_LED_PIN HIGH; Delay 100;
        DigitalWrite YELLOW_LED_PIN LOW;
        DigitalWrite RED_LED_PIN LOW;
        PICC_HaltA; PCD_StopCrypto1]).
Proof.
  intros Hm Hmode Hfound. open_state s Hmode.
  run_card. rewrite Hm. run_card.
  destruct (Z.eqb_spec (findEEPROMAddress E (shrunkUID uid)) (-1))
    as [|_]; [contradiction|].
  cbn [negb]. run_card. flatten_trace. reflexivity.
Qed.

Lemma loop_card_add (uid : Uid) (s : State) :
  is_master (shrunkUID uid) = false -> manageMode s = true ->
  findEEPROMAddress (EEPROM s) (shrunkUID uid) = -1 ->
  findEmptyEEPROMAddress (EEPROM s) <> -1 ->
  exec (loop_card uid) s =
    mkState false (activityFlag s) (lastActivityTime s)
      (EEPROM_write (EEPROM s) (findEmptyEEPROMAddress (EEPROM s)) (shrunkUID uid))
      (mkPins (relay (pins s)) (green_led (pins s)) LOW LOW)
      (trace s ++
       [Serial_print "Card UID: "; Serial_println_int (shrunkUID uid);
        Serial_print "New card added to EEPROM at address ";
        Serial_println_int (findEmptyEEPROMAddress (EEPROM s));
        DigitalWrite YELLOW_LED_PIN HIGH; Delay 1000;
        DigitalWrite YELLOW_LED_PIN LOW;
        DigitalWrite RED_LED_PIN LOW;
        PICC_HaltA; PCD_StopCrypto1]).
Proof.
  intros Hm Hmode Habsent Hroom. open_state s Hmode.
  run_card. rewrite Hm. run_card.
  rewrite Habsent, Z.eqb_refl. cbn [negb]. run_card.
  destruct (Z.eqb_spec (findEmptyEEPROMAddress E) (-1))
    as [|_]; [contradiction|].
  cbn [negb]. run_card. flatten_trace. reflexivity.
Qed.

Lemma loop_card_full (uid : Uid) (s : State) :
  is_master (shrunkUID uid) = false -> manageMode s = true ->
  findEEPROMAddress (EEPROM s) (shrunkUID uid) = -1 ->
  findEmptyEEPROMAddress (EEPROM s) = -1 ->
  exec (loop_card uid) s =
    mkState false (activityFlag s) (lastActivityTime s) (EEPROM s)
      (set_pin RED_LED_PIN LOW (pins s))
      (trace s ++
       [Serial_print "Card UID: "; Serial_println_int (shrunkUID uid);
        Serial_println "EEPROM is full. Cannot add more cards.";
        DigitalWrite RED_LED_PIN LOW;
        PICC_HaltA; PCD_StopCrypto1]).
Proof.
  intros Hm Hmode Habsent Hfull. open_state s Hmode.
  run_card. rewrite Hm. run_card.
  rewrite Habsent, Z.eqb_refl. cbn [negb]. run_card.
  rewrite Hfull, Z.eqb_refl. cbn [negb]. run_card.
  flatten_trace. reflexivity.
Qed.

Lemma loop_card_grant (uid : Uid) (s : State) :
  is_master (shrunkUID uid) = false -> manageMode s = false ->
  findEEPROMAddress (EEPROM s) (shrunkUID uid) <> -1 ->
  exec (loop_card uid) s =
    mkState false (activityFlag s) (lastActivityTime s) (EEPROM s)
      (mkPins LOW LOW (red_led (pins s)) (yellow_led (pins s)))
      (trace s ++
       [Serial_print "Card UID: "; Serial_println_int (shrunkUID uid);
        Serial_println "Access granted.";
        DigitalWrite GREEN_LED_PIN HIGH; DigitalWrite RELAY_PIN HIGH;
        Delay 3000;
        DigitalWrite RELAY_PIN LOW; DigitalWrite GREEN_LED_PIN LOW;
        PICC_HaltA; PCD_StopCrypto1]).
Proof.
  intros Hm Hmode Hfound. open_state s Hmode.
  run_card. rewrite Hm. run_card.
  destruct (Z.eqb_spec (findEEPROMAddress E (shrunkUID uid)) (-1))
    as [|_]; [contradiction|].
  cbn [negb]. run_card. flatten_trace. reflexivity.
Qed.

Lemma loop_card_deny (uid : Uid) (s : State) :
  is_master (shrunkUID uid) = false -> manageMode s = false ->
  findEEPROMAddress (EEPROM s) (shrunkUID uid) = -1 ->
  exec (loop_card uid) s =
    mkState false (activityFlag s) (lastActivityTime s) (EEPROM s)
      (set_pin RED_LED_PIN LOW (pins s))
      (trace s ++
       [Serial_print "Card UID: "; Serial_println_int (shrunkUID uid);
        Serial_println "Access denied.";
        DigitalWrite RED_LED_PIN HIGH; Delay 2000;
        DigitalWrite RED_LED_PIN LOW;
        PICC_HaltA; PCD_StopCrypto1]).
Proof.
  intros Hm Hmode Habsent. open_state s Hmode.
  run_card. rewrite Hm. run_card.
  rewrite Habsent, Z.eqb_refl. cbn [negb]. run_card.
  flatten_trace. reflexivity.
Qed.

(** Case analysis on the branch [loop_card uid] takes from [s]; each case
    rewrites the final state with the matching branch lemma. *)
Ltac card_cases uid s :=
  let Hmaster := fresh "Hmaster" in
  let Hmode := fresh "Hmode" in
  let Habsent := fresh "Habsent" in
  let Hfound := fresh "Hfound" in
  let Hfull := fresh "Hfull" in
  let Hroom := fresh "Hroom" in
  destruct (is_master (shrunkUID uid)) eqn:Hmaster;
  destruct (manageMode s) eqn:Hmode;
  [ rewrite (loop_card_exit_manage uid s Hmaster Hmode)
  | rewrite (loop_card_enter_manage uid s Hmaster Hmode)
  | destruct (Z.eq_dec (findEEPROMAddress (EEPROM s) (shrunkUID uid)) (-1))
      as [Habsent|Hfound];
    [ destruct (Z.eq_dec (findEmptyEEPROMAddress (EEPROM s)) (-1))
        as [Hfull|Hroom];
      [ rewrite (loop_card_full uid s Hmaster Hmode Habsent Hfull)
      | rewrite (loop_card_add uid s Hmaster Hmode Habsent Hroom) ]
    | rewrite (loop_card_remove uid s Hmaster Hmode Hfound) ]
  | destruct (Z.eq_dec (findEEPROMAddress (EEPROM s) (shrunkUID uid)) (-1))
      as [Habsent|Hfound];
    [ rewrite (loop_card_deny uid s Hmaster Hmode Habsent)
    | rewrite (loop_card_grant uid s Hmaster Hmode Hfound) ] ].

(** The card handler never touches the inactivity bookkeeping and never
    sleeps. *)
Lemma loop_card_frame (uid : Uid) (s : State) :
  activityFlag (exec (loop_card uid) s) = activityFlag s
  /\ lastActivityTime (exec (loop_card uid) s) = lastActivityTime s
  /\ exists l, trace (exec (loop_card uid) s) = trace s ++ l /\ ~ In Sleep_cpu l.
Proof.
  card_cases uid s; cbn [activityFlag lastActivityTime trace];
    (split; [reflexivity|]; split; [reflexivity|]);
    eexists; (split; [reflexivity|]);
    cbn [In]; intros H; repeat (destruct H as [H|H]; [discriminate H|]); exact H.
Qed.

(** From Normal mode the store is never written. *)
Lemma loop_card_normal_store (uid : Uid) (s : State) :
  manageMode s = false -> EEPROM (exec (loop_card uid) s) = EEPROM s.
Proof.
  intros Hnormal. card_cases uid s; try discriminate; reflexivity.
Qed.

(** ** The claims *)

(** C6. The credential reducer is a deterministic pure function: for every
    raw identifier the reader can deliver (at most ten bytes), the reduced
    code computed by the sketch is the sum of the bytes modulo 100, and equal
    identifiers reduce to equal codes. *)
Theorem reducer_is_byte_sum_mod_100 (r : Uid) (Hok : uid_ok r) :
  shrunkUID r = byte_sum r mod 100
  /\ shrunkUID r = spec_reduce r
  /\ forall r' : Uid, r' = r -> shrunkUID r' = shrunkUID r.
Proof.
  split; [|split].
  - exact (shrunkUID_spec_reduce r Hok).
  - exact (shrunkUID_spec_reduce r Hok).
  - intros r' ->. reflexivity.
Qed.

Lemma reducer_is_byte_sum_mod_100_witness :
  uid_ok [xde; xad; xbe; xef]
  /\ shrunkUID [xde; xad; xbe; xef] = 24
  /\ shrunkUID [xde; xad; xbe; xef] = byte_sum [xde; xad; xbe; xef] mod 100.
Proof.
  assert (uid_ok [xde; xad; xbe; xef]) as Hok by (unfold uid_ok; cbn; lia).
  split; [exact Hok|]. split; [reflexivity|].
  exact (proj1 (reducer_is_byte_sum_mod_100 [xde; xad; xbe; xef] Hok)).
Defined.

(** C10. Every reduced code lies in [0, 99]; hence it never equals the
    compiled-in master codes 123 and 456, and the master test succeeds
    exactly on the codes 43 and 98. *)
Theorem only_two_master_codes_live (r : Uid) (Hok : uid_ok r) :
  0 <= shrunkUID r <= 99
  /\ shrunkUID r <> MASTER_UID3
  /\ shrunkUID r <> MASTER_UID4
  /\ (is_master (shrunkUID r) = true
      <-> shrunkUID r = MASTER_UID1 \/ shrunkUID r = MASTER_UID2).
Proof.
  pose proof (shrunkUID_range r Hok) as Hrange.
  unfold is_master, MASTER_UID1, MASTER_UID2, MASTER_UID3, MASTER_UID4.
  split; [exact Hrange|]. split; [lia|]. split; [lia|].
  rewrite !orb_true_iff, !Z.eqb_eq. lia.
Qed.

Lemma only_two_master_codes_live_witness :
  uid_ok [x2b; x64; x64; x64]
  /\ shrunkUID [x2b; x64; x64; x64] = 43
  /\ is_master (shrunkUID [x2b; x64; x64; x64]) = true
  /\ shrunkUID [x2b; x64; x64; x64] <> MASTER_UID3.
Proof.
  assert (uid_ok [x2b; x64; x64; x64]) as Hok by (unfold uid_ok; cbn; lia).
  split; [exact Hok|]. split; [reflexivity|]. split; [reflexivity|].
  exact (proj1 (proj2 (only_two_master_codes_live [x2b; x64; x64; x64] Hok))).
Defined.

(** The [uid_ok] bound is what keeps the 16-bit accumulator exact: 129 bytes
    of [0xFF], more than any reader buffer holds, would wrap it. *)
Remark accumulator_wraps_past_int_max :
  shrunkUID (repeat xff 129) = -41 /\ spec_reduce (repeat xff 129) = 95.
Proof. split; vm_compute; reflexivity. Qed.

(** C2. A card whose code is a master code only toggles the mode.  From
    Normal the sketch enters Manage, sets the red (admin) LED and pulses the
    green LED and the relay for 3000 ms; from Manage it returns to Normal and
    clears the red LED without any pulse.  In both cases the EEPROM is left
    alone and the trace shows no grant, deny, add or remove action.  Two
    master cards in a row, starting from Normal, end in Normal. *)
Theorem master_card_toggles_mode (uid : Uid) (s : State)
    (Hmaster : is_master (shrunkUID uid) = true) :
  let s' := exec (Sketch.loop (Some uid)) s in
  EEPROM s' = EEPROM s
  /\ manageMode s' = negb (manageMode s)
  /\ (manageMode s = false ->
      manageMode s' = true
      /\ red_led (pins s') = HIGH
      /\ relay (pins s') = LOW /\ green_led (pins s') = LOW
      /\ trace s' = trace s ++
           [Serial_print "Card UID: "; Serial_println_int (shrunkUID uid);
            Serial_println "Master card detected. Entering manage mode...";
            DigitalWrite RED_LED_PIN HIGH; DigitalWrite GREEN_LED_PIN HIGH;
            DigitalWrite RELAY_PIN HIGH; Delay 3000;
            DigitalWrite RELAY_PIN LOW; DigitalWrite GREEN_LED_PIN LOW;
            PICC_HaltA; PCD_StopCrypto1])
  /\ (manageMode s = true ->
      manageMode s' = false
      /\ red_led (pins s') = LOW
      /\ relay (pins s') = relay (pins s)
      /\ green_led (pins s') = green_led (pins s)
      /\ trace s' = trace s ++
           [Serial_print "Card UID: "; Serial_println_int (shrunkUID uid);
            Serial_println "Master card detected again. Exiting manage mode...";
            DigitalWrite RED_LED_PIN LOW;
            PICC_HaltA; PCD_StopCrypto1])
  /\ (manageMode s = false ->
      forall uid2 : Uid, is_master (shrunkUID uid2) = true ->
        manageMode (exec (Sketch.loop (Some uid2)) s') = false).
Proof.
  cbv zeta. unfold Sketch.loop.
  destruct (manageMode s) eqn:Hmode.
  - rewrite (loop_card_exit_manage uid s Hmaster Hmode).
    cbn [EEPROM manageMode pins trace set_pin red_led relay green_led negb].
    repeat split; try reflexivity; discriminate.
  - rewrite (loop_card_enter_manage uid s Hmaster Hmode).
    cbn [EEPROM manageMode pins trace red_led relay green_led negb].
    repeat split; try reflexivity; try discriminate.
    intros _ uid2 Hmaster2.
    rewrite loop_card_exit_manage; [reflexivity | exact Hmaster2 | reflexivity].
Qed.

Lemma master_card_toggles_mode_witness :
  is_master (shrunkUID [x2b; x64; x64; x64]) = true
  /\ manageMode (exec (Sketch.loop (Some [x2b; x64; x64; x64]))
                      (exec Sketch.setup (power_on (repeat x00 10)))) = true.
Proof.
  split; [reflexivity|].
  exact (proj1 (proj2 (master_card_toggles_mode [x2b; x64; x64; x64]
           (exec Sketch.setup (power_on (repeat x00 10))) eq_refl))).
Defined.

(** C3. A non-master card handled in Manage mode always leaves the
    controller in Normal mode with the red (admin) LED off, whichever of
    removal, addition or store-full happened; the iteration that follows
    therefore cannot write to the EEPROM: one administrative action per entry
    into Manage mode. *)
Theorem manage_mode_reverts_after_one_card (uid : Uid) (s : State)
    (Hmode : manageMode s = true)
    (Hplain : is_master (shrunkUID uid) = false) :
  let s' := exec (Sketch.loop (Some uid)) s in
  manageMode s' = false
  /\ red_led (pins s') = LOW
  /\ forall card2 : option Uid,
       EEPROM (exec (Sketch.loop card2) s') = EEPROM s'.
Proof.
  cbv zeta.
  assert (manageMode (exec (Sketch.loop (Some uid)) s) = false
          /\ red_led (pins (exec (Sketch.loop (Some uid)) s)) = LOW) as [Hm Hred].
  { unfold Sketch.loop. card_cases uid s; try discriminate;
      split; reflexivity. }
  split; [exact Hm|]. split; [exact Hred|].
  intros [uid2|]; [|reflexivity].
  apply loop_card_normal_store. exact Hm.
Qed.

Lemma manage_mode_reverts_after_one_card_witness :
  manageMode (mkState true false 0 (repeat x00 10) (mkPins LOW LOW HIGH LOW) []) = true
  /\ is_master (shrunkUID [x07; x00; x00; x00]) = false
  /\ manageMode (exec (Sketch.loop (Some [x07; x00; x00; x00]))
       (mkState true false 0 (repeat x00 10) (mkPins LOW LOW HIGH LOW) [])) = false.
Proof.
  split; [reflexivity|]. split; [reflexivity|].
  exact (proj1 (manage_mode_reverts_after_one_card [x07; x00; x00; x00]
           (mkState true false 0 (repeat x00 10) (mkPins LOW LOW HIGH LOW) [])
           eq_refl eq_refl)).
Defined.

(** C8. An iteration started in Normal mode never writes to the EEPROM,
    whether the card is granted, denied or a master card (or no card is
    present); a denied card is reported and not stored. *)
Theorem normal_mode_preserves_store (card : option Uid) (s : State)
    (Hmode : manageMode s = false) :
  let s' := exec (Sketch.loop card) s in
  EEPROM s' = EEPROM s
  /\ forall uid : Uid,
       card = Some uid ->
       is_master (shrunkUID uid) = false ->
       findEEPROMAddress (EEPROM s) (shrunkUID uid) = -1 ->
       manageMode s' = false
       /\ trace s' = trace s ++
            [Serial_print "Card UID: "; Serial_println_int (shrunkUID uid);
             Serial_println "Access denied.";
             DigitalWrite RED_LED_PIN HIGH; Delay 2000;
             DigitalWrite RED_LED_PIN LOW;
             PICC_HaltA; PCD_StopCrypto1].
Proof.
  cbv zeta. split.
  - destruct card as [uid|]; [|reflexivity].
    apply loop_card_normal_store. exact Hmode.
  - intros uid -> Hplain Habsent. unfold Sketch.loop.
    rewrite (loop_card_deny uid s Hplain Hmode Habsent).
    split; reflexivity.
Qed.

(** Scenario A of the specification: empty store of capacity 10, code 7
    presented in Normal mode. *)
Lemma normal_mode_preserves_store_witness :
  manageMode (exec Sketch.setup (power_on (repeat x00 10))) = false
  /\ EEPROM (exec (Sketch.loop (Some [x07; x00; x00; x00]))
                  (exec Sketch.setup (power_on (repeat x00 10))))
     = repeat x00 10.
Proof.
  split; [reflexivity|].
  exact (proj1 (normal_mode_preserves_store (Some [x07; x00; x00; x00])
           (exec Sketch.setup (power_on (repeat x00 10))) eq_refl)).
Defined.

(** ** Facts about the store *)

(** The index the scan returns is characterised by "first cell holding the
    code". *)
Lemma findEEPROMAddress_first (E : list byte) (uid : Z) (i : nat) (b : byte) :
  E !! i = Some b -> byte_val b = uid ->
  (forall k c, (k < i)%nat -> E !! k = Some c -> byte_val c <> uid) ->
  findEEPROMAddress E uid = Z.of_nat i.
Proof.
  intros Hi Hb Hfirst.
  destruct (Z.eq_dec (findEEPROMAddress E uid) (-1)) as [Hnone|Hsome].
  - exfalso. exact (findEEPROMAddress_none E uid Hnone i b Hi Hb).
  - destruct (findEEPROMAddress_found E uid Hsome)
      as (j & -> & _ & (c & Hj & Hc) & Hjfirst).
    destruct (Nat.lt_trichotomy j i) as [Hlt|[->|Hgt]].
    + exfalso. exact (Hfirst j c Hlt Hj Hc).
    + reflexivity.
    + exfalso. exact (Hjfirst i b Hgt Hi Hb).
Qed.

(** A hit for a non-zero code is never a slot holding the sentinel. *)
Lemma findEEPROMAddress_nonzero_hit (E : list byte) (uid : Z) :
  uid <> 0 -> findEEPROMAddress E uid <> -1 ->
  exists (i : nat) (b : byte),
    findEEPROMAddress E uid = Z.of_nat i /\ E !! i = Some b /\ b <> x00.
Proof.
  intros Hnz Hhit.
  destruct (findEEPROMAddress_found E uid Hhit) as (i & Hr & _ & (b & Hb & Hv) & _).
  exists i, b. split; [exact Hr|]. split; [exact Hb|].
  intros ->. apply Hnz. rewrite <- Hv. reflexivity.
Qed.

(** An empty slot exists exactly when the scan for one succeeds. *)
Lemma findEmptyEEPROMAddress_room (E : list byte) :
  In x00 E -> findEmptyEEPROMAddress E <> -1.
Proof.
  intros Hin Hnone. rewrite findEmpty_as_find in Hnone.
  apply list_elem_of_In, list_elem_of_lookup in Hin as [i Hi].
  exact (findEEPROMAddress_none E 0 Hnone i x00 Hi eq_refl).
Qed.

Lemma findEmptyEEPROMAddress_full (E : list byte) :
  (forall b, In b E -> b <> x00) -> findEmptyEEPROMAddress E = -1.
Proof.
  intros Hfull. rewrite findEmpty_as_find.
  apply findEEPROMAddress_absent. intros b Hb Hz.
  apply byte_val_zero in Hz. exact (Hfull b Hb Hz).
Qed.

(** Any card whose code is 0 is granted in Normal mode as soon as one slot
    is empty. *)
Lemma zero_code_granted (uid : Uid) (s : State) :
  manageMode s = false -> shrunkUID uid = 0 -> In x00 (EEPROM s) ->
  In (Serial_println "Access granted.") (trace (exec (loop_card uid) s)).
Proof.
  intros Hmode Hzero Hin.
  assert (is_master (shrunkUID uid) = false) as Hplain by (rewrite Hzero; reflexivity).
  assert (findEEPROMAddress (EEPROM s) (shrunkUID uid) <> -1) as Hhit.
  { rewrite Hzero, <- findEmpty_as_find. apply findEmptyEEPROMAddress_room, Hin. }
  rewrite (loop_card_grant uid s Hplain Hmode Hhit). cbn [trace].
  apply in_or_app. right. cbn. tauto.
Qed.

(** C1. Evaluation of the sketch on a store holding the code 7 in slot 0
    and three empty slots, in Normal mode, with a four-byte identifier whose
    bytes sum to 100: the code is 0, the scan returns slot 1, which holds the
    sentinel, and access is granted. *)
Theorem code_zero_matches_empty_slot :
  let E := [x07; x00; x00; x00] in
  let uid := [x19; x19; x19; x19] in
  let s := exec Sketch.setup (power_on E) in
  (length uid <= 10)%nat
  /\ shrunkUID uid = 0
  /\ manageMode s = false
  /\ findEEPROMAddress (EEPROM s) (shrunkUID uid) = 1
  /\ EEPROM s !! 1%nat = Some x00
  /\ trace (exec (Sketch.loop (Some uid)) s) = trace s ++
       [Serial_print "Card UID: "; Serial_println_int 0;
        Serial_println "Access granted.";
        DigitalWrite GREEN_LED_PIN HIGH; DigitalWrite RELAY_PIN HIGH;
        Delay 3000;
        DigitalWrite RELAY_PIN LOW; DigitalWrite GREEN_LED_PIN LOW;
        PICC_HaltA; PCD_StopCrypto1].
Proof.
  cbv zeta. split; [cbn; lia|].
  repeat split; vm_compute; reflexivity.
Qed.

(** ** The README listing *)

Lemma Readme_loop_idle (now : Z) (s : State) :
  exec (Readme.loop now None) s =
    if Readme.inactive now (lastActivityTime s) then
      mkState (manageMode s) true (lastActivityTime s) (EEPROM s) (pins s)
        (trace s ++
         [Serial_println "Going to sleep..."; Set_sleep_mode_PWR_DOWN;
          Sleep_enable; AttachInterrupt_wakeUp; Sleep_cpu; Sleep_disable;
          DetachInterrupt; Serial_println "Waking up..."])
    else s.
Proof.
  destruct s as [mm af lt E ps tr].
  cbn [manageMode lastActivityTime EEPROM pins trace].
  cbv [Readme.loop exec bind gets fst snd lastActivityTime].
  destruct (Readme.inactive now lt); [|reflexivity].
  cbv [Readme.goToSleep Readme.wakeUp]. run_card.
  flatten_trace. reflexivity.
Qed.

(** With a card, the iteration is: inactivity test, then the refresh of
    [activityFlag] and [lastActivityTime], then the card handler. *)
Lemma Readme_loop_card (now t : Z) (uid : Uid) (s : State) :
  exec (Readme.loop now (Some (t, uid))) s =
    exec (loop_card uid)
      (mkState (manageMode (exec (Readme.loop now None) s)) true t
         (EEPROM (exec (Readme.loop now None) s))
         (pins (exec (Readme.loop now None) s))
         (trace (exec (Readme.loop now None) s))).
Proof.
  destruct s as [mm af lt E ps tr].
  cbv [Readme.loop exec bind gets fst snd lastActivityTime].
  destruct (Readme.inactive now lt).
  - cbv [Readme.goToSleep Readme.wakeUp]. run_card. reflexivity.
  - reflexivity.
Qed.

Lemma Readme_loop_idle_frame (now : Z) (s : State) :
  manageMode (exec (Readme.loop now None) s) = manageMode s
  /\ EEPROM (exec (Readme.loop now None) s) = EEPROM s
  /\ pins (exec (Readme.loop now None) s) = pins s
  /\ lastActivityTime (exec (Readme.loop now None) s) = lastActivityTime s.
Proof.
  rewrite Readme_loop_idle.
  destruct (Readme.inactive now (lastActivityTime s)); repeat split.
Qed.

(** C5. When no slot of the store is empty and a non-master code that is
    not stored is presented in Manage mode, the iteration reports that the
    EEPROM is full, writes nothing to the store, pulses no LED (the only pin
    written is the red LED, switched off), runs to the end of the loop body
    (the reader session is finalised) and leaves the controller in Normal
    mode. *)
Theorem full_store_add_is_rejected (now t : Z) (uid : Uid) (s : State)
    (Hmode : manageMode s = true)
    (Hplain : is_master (shrunkUID uid) = false)
    (Hfull : forall b, In b (EEPROM s) -> b <> x00)
    (Hnew : forall b, In b (EEPROM s) -> byte_val b <> shrunkUID uid) :
  let s' := exec (Readme.loop now (Some (t, uid))) s in
  EEPROM s' = EEPROM s
  /\ trace s' = trace (exec (Readme.loop now None) s) ++
       [Serial_print "Card UID: "; Serial_println_int (shrunkUID uid);
        Serial_println "EEPROM is full. Cannot add more cards.";
        DigitalWrite RED_LED_PIN LOW;
        PICC_HaltA; PCD_StopCrypto1]
  /\ yellow_led (pins s') = yellow_led (pins s)
  /\ green_led (pins s') = green_led (pins s)
  /\ relay (pins s') = relay (pins s)
  /\ manageMode s' = false.
Proof.
  cbv zeta. rewrite Readme_loop_card.
  destruct (Readme_loop_idle_frame now s) as (Hm & HE & Hp & _).
  rewrite Hm, HE, Hp.
  rewrite loop_card_full; cbn [manageMode EEPROM]; try assumption.
  - cbn [EEPROM trace pins manageMode]. repeat split; destruct (pins s); reflexivity.
  - apply findEEPROMAddress_absent. exact Hnew.
  - apply findEmptyEEPROMAddress_full. exact Hfull.
Qed.

(** Scenario D of the specification on a two-slot store. *)
Lemma full_store_add_is_rejected_witness :
  let s := mkState true false 0 [x07; x09] (mkPins LOW LOW HIGH LOW) [] in
  manageMode s = true
  /\ is_master (shrunkUID [x05; x00; x00; x00]) = false
  /\ (forall b, In b (EEPROM s) -> b <> x00)
  /\ (forall b, In b (EEPROM s) -> byte_val b <> shrunkUID [x05; x00; x00; x00])
  /\ EEPROM (exec (Readme.loop 1000 (Some (1001, [x05; x00; x00; x00]))) s)
     = [x07; x09].
Proof.
  cbv zeta.
  assert (forall b, In b [x07; x09] -> b <> x00) as Hfull.
  { intros b [<-|[<-|[]]]; discriminate. }
  assert (forall b, In b [x07; x09] -> byte_val b <> shrunkUID [x05; x00; x00; x00])
    as Hnew.
  { intros b [<-|[<-|[]]]; vm_compute; discriminate. }
  split; [reflexivity|]. split; [reflexivity|].
  split; [exact Hfull|]. split; [exact Hnew|].
  exact (proj1 (full_store_add_is_rejected 1000 1001 [x05; x00; x00; x00]
           (mkState true false 0 [x07; x09] (mkPins LOW LOW HIGH LOW) [])
           eq_refl eq_refl Hfull Hnew)).
Defined.

(** C7. Add followed by remove is a round trip.  Starting in Manage mode
    with a free slot, a card with a non-zero, non-master code that is not
    stored is added at the first empty slot; after the master card has put
    the controller back into Manage mode, the same card is removed, and the
    EEPROM is again exactly what it was (the slot holds the sentinel). *)
Theorem add_then_remove_restores_store
    (n1 t1 n2 t2 n3 t3 : Z) (uid master : Uid) (s : State)
    (Hok : uid_ok uid)
    (Hmode : manageMode s = true)
    (Hplain : is_master (shrunkUID uid) = false)
    (Hnz : shrunkUID uid <> 0)
    (Hnew : forall b, In b (EEPROM s) -> byte_val b <> shrunkUID uid)
    (Hroom : In x00 (EEPROM s))
    (Hmaster : is_master (shrunkUID master) = true) :
  let s1 := exec (Readme.loop n1 (Some (t1, uid))) s in
  let s3 := Readme.run [(n2, Some (t2, master)); (n3, Some (t3, uid))] s1 in
  (exists i : nat,
      findEmptyEEPROMAddress (EEPROM s) = Z.of_nat i
      /\ EEPROM s !! i = Some x00
      /\ EEPROM s1 = <[i := to_uint8 (shrunkUID uid)]> (EEPROM s)
      /\ EEPROM s1 <> EEPROM s)
  /\ EEPROM s3 = EEPROM s.
Proof.
  cbv zeta.
  pose proof (shrunkUID_range uid Hok) as Hrange.
  assert (byte_val (to_uint8 (shrunkUID uid)) = shrunkUID uid) as Hval
    by (apply byte_val_to_uint8; lia).
  assert (findEEPROMAddress (EEPROM s) (shrunkUID uid) = -1) as Habsent
    by (apply findEEPROMAddress_absent; exact Hnew).
  pose proof (findEmptyEEPROMAddress_room (EEPROM s) Hroom) as Hfree.
  assert (exists i : nat, findEmptyEEPROMAddress (EEPROM s) = Z.of_nat i
            /\ EEPROM s !! i = Some x00) as (i & Hi & Hslot).
  { rewrite findEmpty_as_find in Hfree |- *.
    destruct (findEEPROMAddress_found (EEPROM s) 0 Hfree)
      as (i & Hr & _ & (b & Hb & Hv) & _).
    exists i. split; [exact Hr|]. apply byte_val_zero in Hv. congruence. }
  (* the add *)
  assert (EEPROM (exec (Readme.loop n1 (Some (t1, uid))) s)
          = <[i := to_uint8 (shrunkUID uid)]> (EEPROM s)
          /\ manageMode (exec (Readme.loop n1 (Some (t1, uid))) s) = false)
    as [Hadd Hmode1].
  { rewrite Readme_loop_card.
    destruct (Readme_loop_idle_frame n1 s) as (Hm & HE & _ & _).
    rewrite Hm, HE.
    rewrite loop_card_add; cbn [manageMode EEPROM]; try assumption.
    unfold EEPROM_write. rewrite Hi, Nat2Z.id. split; reflexivity. }
  split.
  { exists i. split; [exact Hi|]. split; [exact Hslot|]. split; [exact Hadd|].
    rewrite Hadd. intros Heq.
    assert (<[i := to_uint8 (shrunkUID uid)]> (EEPROM s) !! i
            = Some (to_uint8 (shrunkUID uid))) as Hnow
      by (apply list_lookup_insert_eq; eapply lookup_lt_Some; exact Hslot).
    rewrite Heq, Hslot in Hnow. injection Hnow as Hb.
    apply Hnz. rewrite <- Hval, <- Hb. reflexivity. }
  (* the master card, then the remove *)
  unfold Readme.run. cbn [fold_left fst snd].
  set (s1 := exec (Readme.loop n1 (Some (t1, uid))) s) in *.
  set (s2 := exec (Readme.loop n2 (Some (t2, master))) s1).
  assert (EEPROM s2 = EEPROM s1 /\ manageMode s2 = true) as [HE2 Hmode2].
  { unfold s2. rewrite Readme_loop_card.
    destruct (Readme_loop_idle_frame n2 s1) as (Hm & HE & _ & _).
    rewrite Hm, HE.
    rewrite loop_card_enter_manage; cbn [manageMode]; try assumption.
    split; reflexivity. }
  rewrite Readme_loop_card.
  destruct (Readme_loop_idle_frame n3 s2) as (Hm & HE & _ & _).
  rewrite Hm, HE, HE2, Hadd.
  assert (findEEPROMAddress (<[i := to_uint8 (shrunkUID uid)]> (EEPROM s))
            (shrunkUID uid) = Z.of_nat i) as Hwhere.
  { apply findEEPROMAddress_first with (b := to_uint8 (shrunkUID uid)).
    - apply list_lookup_insert_eq. eapply lookup_lt_Some. exact Hslot.
    - exact Hval.
    - intros k c Hk Hc. rewrite list_lookup_insert_ne in Hc by lia.
      apply Hnew. apply list_elem_of_In. eapply list_elem_of_lookup_2. exact Hc. }
  rewrite loop_card_remove; cbn [manageMode EEPROM]; try assumption.
  - rewrite Hwhere. unfold EEPROM_write. rewrite Nat2Z.id.
    rewrite list_insert_insert_eq. change (to_uint8 0) with x00.
    apply list_insert_id. exact Hslot.
  - rewrite Hwhere. lia.
Qed.

Lemma add_then_remove_restores_store_witness :
  let s := mkState true false 0 [x07; x00; x09] (mkPins LOW LOW HIGH LOW) [] in
  let uid := [x05; x00; x00; x00] in
  let master := [x2b; x64; x64; x64] in
  uid_ok uid
  /\ manageMode s = true
  /\ is_master (shrunkUID uid) = false
  /\ shrunkUID uid <> 0
  /\ (forall b, In b (EEPROM s) -> byte_val b <> shrunkUID uid)
  /\ In x00 (EEPROM s)
  /\ is_master (shrunkUID master) = true
  /\ EEPROM (exec (Readme.loop 10 (Some (11, uid))) s) = [x07; x05; x09]
  /\ EEPROM (Readme.run [(5000, Some (5001, master)); (9000, Some (9001, uid))]
               (exec (Readme.loop 10 (Some (11, uid))) s))
     = [x07; x00; x09].
Proof.
  cbv zeta.
  assert (uid_ok [x05; x00; x00; x00]) as Hok by (unfold uid_ok; cbn; lia).
  assert (shrunkUID [x05; x00; x00; x00] <> 0) as Hnz by (vm_compute; discriminate).
  assert (forall b, In b [x07; x00; x09] -> byte_val b <> shrunkUID [x05; x00; x00; x00])
    as Hnew.
  { intros b [<-|[<-|[<-|[]]]]; vm_compute; discriminate. }
  assert (In x00 [x07; x00; x09]) as Hroom by (cbn; tauto).
  split; [exact Hok|]. split; [reflexivity|]. split; [reflexivity|].
  split; [exact Hnz|]. split; [exact Hnew|]. split; [exact Hroom|].
  split; [reflexivity|]. split; [reflexivity|].
  exact (proj2 (add_then_remove_restores_store 10 11 5000 5001 9000 9001
           [x05; x00; x00; x00] [x2b; x64; x64; x64]
           (mkState true false 0 [x07; x00; x09] (mkPins LOW LOW HIGH LOW) [])
           Hok eq_refl eq_refl Hnz Hnew Hroom eq_refl)).
Defined.

(** ** Store exclusivity *)

Lemma exclusive_insert_sentinel (E : list byte) (k : nat) :
  exclusive E -> exclusive (<[k := x00]> E).
Proof.
  intros Hex i j b Hij Hi Hj.
  apply list_lookup_insert_Some in Hi as [(_ & Hb & _)|(Hki & Hi)];
    [symmetry; exact Hb|].
  apply list_lookup_insert_Some in Hj as [(_ & Hb & _)|(Hkj & Hj)];
    [symmetry; exact Hb|].
  exact (Hex i j b Hij Hi Hj).
Qed.

Lemma exclusive_insert_fresh (E : list byte) (k : nat) (v : byte) :
  (forall b, In b E -> b <> v) ->
  exclusive E -> exclusive (<[k := v]> E).
Proof.
  intros Hfresh Hex i j b Hij Hi Hj.
  assert (forall n c, E !! n = Some c -> c <> v) as Hfresh'.
  { intros n c Hn. apply Hfresh, list_elem_of_In.
    eapply list_elem_of_lookup_2. exact Hn. }
  apply list_lookup_insert_Some in Hi as [(Hki & Hb & _)|(Hki & Hi)];
    apply list_lookup_insert_Some in Hj as [(Hkj & Hb' & _)|(Hkj & Hj)].
  - congruence.
  - exfalso. apply (Hfresh' j b Hj). congruence.
  - exfalso. apply (Hfresh' i b Hi). congruence.
  - exact (Hex i j b Hij Hi Hj).
Qed.

(** One card preserves exclusivity: the add branch is only taken after the
    scan found the code nowhere in the store. *)
Lemma loop_card_exclusive (uid : Uid) (s : State) :
  uid_ok uid -> exclusive (EEPROM s) -> exclusive (EEPROM (exec (loop_card uid) s)).
Proof.
  intros Hok Hex. pose proof (shrunkUID_range uid Hok) as Hrange.
  card_cases uid s; cbn [EEPROM]; try exact Hex.
  - unfold EEPROM_write. apply exclusive_insert_fresh; [|exact Hex].
    intros b Hb ->.
    apply list_elem_of_In, list_elem_of_lookup in Hb as [n Hn].
    apply (findEEPROMAddress_none _ _ Habsent n _ Hn).
    apply byte_val_to_uint8. lia.
  - unfold EEPROM_write. change (to_uint8 0) with x00.
    apply exclusive_insert_sentinel. exact Hex.
Qed.

(** C4. Store exclusivity is an invariant: from a store in which no
    non-empty code occupies two slots, no sequence of loop iterations (with
    or without a card, in any mode) reaches a store in which one does. *)
Theorem exclusivity_is_invariant (cards : list (option Uid)) (s : State)
    (Hcards : cards_ok cards)
    (Hex : exclusive (EEPROM s)) :
  exclusive (EEPROM (Sketch.run cards s)).
Proof.
  revert s Hex. unfold Sketch.run.
  induction cards as [|card cards IH]; intros s Hex; cbn [fold_left].
  - exact Hex.
  - apply IH.
    + intros uid Hin. apply Hcards. right. exact Hin.
    + destruct card as [uid|]; [|exact Hex].
      apply loop_card_exclusive; [|exact Hex].
      apply Hcards. left. reflexivity.
Qed.

(** Scenarios B and C of the specification chained on a three-slot store:
    master, add 7, grant 7, master, remove 7, deny 7. *)
Lemma exclusivity_is_invariant_witness :
  let cards := [Some [x2b; x64; x64; x64]; Some [x07; x00; x00; x00];
                Some [x07; x00; x00; x00]; Some [x2b; x64; x64; x64];
                Some [x07; x00; x00; x00]; Some [x07; x00; x00; x00]] in
  let s := exec Sketch.setup (power_on [x09; x00; x00]) in
  cards_ok cards
  /\ exclusive (EEPROM s)
  /\ EEPROM (Sketch.run (firstn 2 cards) s) = [x09; x07; x00]
  /\ exclusive (EEPROM (Sketch.run cards s)).
Proof.
  cbv zeta.
  assert (cards_ok [Some [x2b; x64; x64; x64]; Some [x07; x00; x00; x00];
                    Some [x07; x00; x00; x00]; Some [x2b; x64; x64; x64];
                    Some [x07; x00; x00; x00]; Some [x07; x00; x00; x00]]) as Hcards.
  { intros uid Hin. unfold uid_ok. cbn [In] in Hin.
    repeat (destruct Hin as [Hin|Hin]; [injection Hin as <-; cbn; lia|]).
    destruct Hin. }
  assert (exclusive (EEPROM (exec Sketch.setup (power_on [x09; x00; x00])))) as Hex.
  { intros i j b Hij Hi Hj. cbn in Hi, Hj.
    destruct i as [|[|[|i]]]; destruct j as [|[|[|j]]]; cbn in Hi, Hj;
      try congruence; try discriminate. }
  split; [exact Hcards|]. split; [exact Hex|]. split; [reflexivity|].
  exact (exclusivity_is_invariant _ _ Hcards Hex).
Defined.

(** ** The inactivity monitor *)

Lemma millis_elapsed (T0 T : Z) :
  ulong_wrap (millis T - millis T0) = (T - T0) mod 4294967296.
Proof.
  unfold millis, ulong_wrap. symmetry. apply Zminus_mod.
Qed.

(** The test of the sketch only succeeds once 30 minutes have really gone
    by, counter wrap-around included. *)
Lemma inactive_elapsed (T0 T : Z) :
  T0 <= T -> Readme.inactive (millis T) (millis T0) = true -> 1800000 <= T - T0.
Proof.
  intros Hmono Hin. unfold Readme.inactive in Hin.
  apply Z.leb_le in Hin. rewrite millis_elapsed in Hin.
  pose proof (Z.mod_le (T - T0) 4294967296 ltac:(lia) ltac:(lia)). lia.
Qed.

Lemma inactive_recent (T0 T : Z) :
  T0 <= T -> T - T0 < 1800000 -> Readme.inactive (millis T) (millis T0) = false.
Proof.
  intros Hmono Hrecent. unfold Readme.inactive.
  apply Z.leb_gt. rewrite millis_elapsed, Z.mod_small; lia.
Qed.

(** What one iteration adds to the trace: [Sleep_cpu] shows up only when the
    inactivity test succeeded. *)
Lemma Readme_loop_trace (now : Z) (card : option (Z * Uid)) (s : State) :
  exists l,
    trace (exec (Readme.loop now card) s) = trace s ++ l
    /\ (In Sleep_cpu l -> Readme.inactive now (lastActivityTime s) = true).
Proof.
  assert (exists l0, trace (exec (Readme.loop now None) s) = trace s ++ l0
            /\ (In Sleep_cpu l0 -> Readme.inactive now (lastActivityTime s) = true))
    as (l0 & Hl0 & Hsleep0).
  { rewrite Readme_loop_idle.
    destruct (Readme.inactive now (lastActivityTime s)).
    - eexists. split; [reflexivity|]. reflexivity.
    - exists []. split; [symmetry; apply List.app_nil_r|]. intros []. }
  destruct card as [[t uid]|]; [|exists l0; split; assumption].
  rewrite Readme_loop_card.
  match goal with |- context [exec (loop_card uid) ?st] =>
    destruct (loop_card_frame uid st) as (_ & _ & l1 & Hl1 & Hsleep1);
    rewrite Hl1
  end.
  cbn [trace]. rewrite Hl0. exists (l0 ++ l1).
  split; [symmetry; apply List.app_assoc|].
  intros Hin. apply in_app_or in Hin as [Hin|Hin]; [auto | contradiction].
Qed.

(** A card refreshes the timestamp; without a card it stays. *)
Lemma Readme_loop_timestamp (now : Z) (card : option (Z * Uid)) (s : State) :
  lastActivityTime (exec (Readme.loop now card) s) =
    match card with
    | Some (t, _) => t
    | None => lastActivityTime s
    end.
Proof.
  destruct card as [[t uid]|].
  - rewrite Readme_loop_card.
    match goal with |- context [exec (loop_card uid) ?st] =>
      destruct (loop_card_frame uid st) as (_ & -> & _)
    end.
    reflexivity.
  - apply Readme_loop_idle_frame.
Qed.

(** While cards keep arriving within the threshold, a run never sleeps. *)
Lemma timely_run_never_sleeps (its : list (Z * option (Z * Uid))) :
  forall (T0 : Z) (s : State),
    lastActivityTime s = millis T0 -> timely T0 its ->
    exists l, trace (Readme.run (map at_times its) s) = trace s ++ l
              /\ ~ In Sleep_cpu l.
Proof.
  unfold Readme.run.
  induction its as [|[T card] its IH]; intros T0 s Hlast Htimely;
    cbn [map fold_left].
  - exists []. split; [symmetry; apply List.app_nil_r | intros []].
  - cbn [timely] in Htimely. destruct Htimely as (Hmono & Hrecent & Hrest).
    change (fst (at_times (T, card))) with (millis T).
    destruct (Readme_loop_trace (millis T) (snd (at_times (T, card))) s)
      as (l1 & Hl1 & Hsleep1).
    pose proof (Readme_loop_timestamp (millis T) (snd (at_times (T, card))) s)
      as Hstamp.
    rewrite Hlast, (inactive_recent T0 T Hmono Hrecent) in Hsleep1.
    set (s1 := exec (Readme.loop (millis T) (snd (at_times (T, card)))) s) in *.
    assert (exists T1, lastActivityTime s1 = millis T1 /\ timely T1 its)
      as (T1 & Hlast1 & Htimely1).
    { destruct card as [[T' uid]|]; cbn [at_times snd] in Hstamp.
      - exists T'. split; [exact Hstamp | apply Hrest].
      - exists T0. split; [congruence | exact Hrest]. }
    destruct (IH T1 s1 Hlast1 Htimely1) as (l2 & Hl2 & Hsleep2).
    exists (l1 ++ l2). split.
    + rewrite Hl2, Hl1. symmetry. apply List.app_assoc.
    + intros Hin. apply in_app_or in Hin as [Hin|Hin];
        [apply Hsleep1 in Hin; discriminate | contradiction].
Qed.

(** C9. With [T0] the true time of the latest refresh of the activity
    timestamp: (1) an iteration whose inactivity test runs at time [T]
    executes [sleep_cpu()] only if at least 1800000 ms (30 minutes) separate
    [T0] and [T]; (2) an iteration that reads a card first sets
    [lastActivityTime] to the current [millis()] and then handles the card,
    which leaves the timestamp alone; (3) hence a run in which every
    inactivity test comes less than 30 minutes after the latest card (or
    boot) never sleeps. *)
Theorem sleep_only_after_inactivity
    (T0 T : Z) (card : option (Z * Uid)) (its : list (Z * option (Z * Uid)))
    (s : State)
    (Hlast : lastActivityTime s = millis T0) :
  let s' := exec (Readme.loop (millis T) card) s in
  (T0 <= T ->
   exists l, trace s' = trace s ++ l
             /\ (In Sleep_cpu l -> 1800000 <= T - T0))
  /\ (forall t uid, card = Some (t, uid) ->
        lastActivityTime s' = t
        /\ s' = exec (loop_card uid)
                  (mkState (manageMode (exec (Readme.loop (millis T) None) s))
                     true t
                     (EEPROM (exec (Readme.loop (millis T) None) s))
                     (pins (exec (Readme.loop (millis T) None) s))
                     (trace (exec (Readme.loop (millis T) None) s))))
  /\ (timely T0 its ->
      exists l, trace (Readme.run (map at_times its) s) = trace s ++ l
                /\ ~ In Sleep_cpu l).
Proof.
  cbv zeta. split; [|split].
  - intros Hmono.
    destruct (Readme_loop_trace (millis T) card s) as (l & Hl & Hsleep).
    exists l. split; [exact Hl|]. intros Hin.
    apply (inactive_elapsed T0 T Hmono). rewrite <- Hlast. auto.
  - intros t uid ->. split.
    + apply (Readme_loop_timestamp (millis T) (Some (t, uid)) s).
    + apply Readme_loop_card.
  - apply timely_run_never_sleeps. exact Hlast.
Qed.

(** A card one second after boot, then inactivity tests up to 29 min 59.999 s
    after that card: no sleep.  (The same tests one millisecond later would
    sleep, see [sleep_at_threshold].) *)
Lemma sleep_only_after_inactivity_witness :
  let s := exec Readme.setup (power_on (repeat x00 10)) in
  let its := [(1000, Some (1001, [x07; x00; x00; x00]));
              (1700000, None); (1801000, None)] in
  lastActivityTime s = millis 0
  /\ timely 0 its
  /\ exists l, trace (Readme.run (map at_times its) s) = trace s ++ l
               /\ ~ In Sleep_cpu l.
Proof.
  cbv zeta.
  assert (timely 0 [(1000, Some (1001, [x07; x00; x00; x00]));
                    (1700000, None); (1801000, None)]) as Htimely.
  { cbn [timely]. repeat split; lia. }
  split; [reflexivity|]. split; [exact Htimely|].
  exact (proj2 (proj2 (sleep_only_after_inactivity 0 0 None
           [(1000, Some (1001, [x07; x00; x00; x00]));
            (1700000, None); (1801000, None)]
           (exec Readme.setup (power_on (repeat x00 10))) eq_refl)) Htimely).
Defined.

(** At the threshold itself the sketch does sleep. *)
Example sleep_at_threshold :
  In Sleep_cpu
    (trace (Readme.run (map at_times [(1000, Some (1001, [x07; x00; x00; x00]));
                                      (1801001, None)])
              (exec Readme.setup (power_on (repeat x00 10))))).
Proof. vm_compute. tauto. Qed.

(** * Further properties of the sketch *)

(** ** The two scans *)

(** X1. [findEmptyEEPROMAddress] returns -1 exactly when no cell is empty;
    otherwise it returns the index of the first cell holding 0, an index
    below [EEPROM.length()]. *)
Theorem findEmptyEEPROMAddress_first_empty (E : list byte) :
  (findEmptyEEPROMAddress E = -1 /\ forall b, In b E -> b <> x00)
  \/ exists i : nat,
       findEmptyEEPROMAddress E = Z.of_nat i /\ (i < length E)%nat
       /\ E !! i = Some x00
       /\ forall k, (k < i)%nat -> E !! k <> Some x00.
Proof.
  rewrite findEmpty_as_find.
  destruct (Z.eq_dec (findEEPROMAddress E 0) (-1)) as [Hnone|Hsome].
  - left. split; [exact Hnone|]. intros b Hb ->.
    apply list_elem_of_In, list_elem_of_lookup in Hb as [i Hi].
    exact (findEEPROMAddress_none E 0 Hnone i x00 Hi eq_refl).
  - right.
    destruct (findEEPROMAddress_found E 0 Hsome)
      as (i & Hr & Hlt & (b & Hb & Hv) & Hfirst).
    apply byte_val_zero in Hv. subst b.
    exists i. split; [exact Hr|]. split; [exact Hlt|]. split; [exact Hb|].
    intros k Hk Hz. exact (Hfirst k x00 Hk Hz eq_refl).
Qed.

(** X2. [findEEPROMAddress] returns -1 exactly when no cell holds the code;
    otherwise it returns the index, below [EEPROM.length()], of the first
    cell whose value equals the code. *)
Theorem findEEPROMAddress_first_match (E : list byte) (uid : Z) :
  (findEEPROMAddress E uid = -1 /\ ~ stored E uid)
  \/ exists (i : nat) (b : byte),
       findEEPROMAddress E uid = Z.of_nat i /\ (i < length E)%nat
       /\ E !! i = Some b /\ byte_val b = uid
       /\ forall k c, (k < i)%nat -> E !! k = Some c -> byte_val c <> uid.
Proof.
  destruct (Z.eq_dec (findEEPROMAddress E uid) (-1)) as [Hnone|Hsome].
  - left. split; [exact Hnone|]. intros (b & Hb & Hv).
    apply list_elem_of_In, list_elem_of_lookup in Hb as [i Hi].
    exact (findEEPROMAddress_none E uid Hnone i b Hi Hv).
  - right.
    destruct (findEEPROMAddress_found E uid Hsome)
      as (i & Hr & Hlt & (b & Hb & Hv) & Hfirst).
    exists i, b. auto.
Qed.

(** X3. A code that is not the value of a byte (negative, or above 255, such
    as [MASTER_UID4 = 456]) is found in no store. *)
Theorem findEEPROMAddress_out_of_byte_range (E : list byte) (uid : Z)
    (Hout : uid < 0 \/ 255 < uid) :
  findEEPROMAddress E uid = -1.
Proof.
  apply findEEPROMAddress_absent. intros b _ Hv.
  pose proof (byte_val_range b). lia.
Qed.

Lemma findEEPROMAddress_out_of_byte_range_witness :
  (MASTER_UID4 < 0 \/ 255 < MASTER_UID4)
  /\ findEEPROMAddress [x07; xc8; x00; xff] MASTER_UID4 = -1.
Proof.
  assert (MASTER_UID4 < 0 \/ 255 < MASTER_UID4) as Hout
    by (right; unfold MASTER_UID4; lia).
  split; [exact Hout|].
  exact (findEEPROMAddress_out_of_byte_range [x07; xc8; x00; xff] MASTER_UID4 Hout).
Defined.

(** ** The reducer *)

Lemma byte_sum_Permutation (r1 r2 : Uid) :
  Permutation r1 r2 -> byte_sum r1 = byte_sum r2.
Proof.
  induction 1 as [|b l l' _ IH|a b l|l l' l'' _ IH1 _ IH2];
    cbn [byte_sum fold_right] in *; try fold (byte_sum l) in *;
    try fold (byte_sum l') in *.
  - reflexivity.
  - rewrite IH. reflexivity.
  - lia.
  - congruence.
Qed.

(** X4. The code of a card does not depend on the order of the bytes of its
    identifier: identifiers that are permutations of one another collide. *)
Theorem shrunkUID_Permutation (r1 r2 : Uid)
    (Hperm : Permutation r1 r2) (Hok : uid_ok r1) :
  shrunkUID r1 = shrunkUID r2.
Proof.
  assert (uid_ok r2) as Hok2.
  { unfold uid_ok in *. rewrite <- (Permutation_length Hperm). exact Hok. }
  rewrite (shrunkUID_spec_reduce r1 Hok), (shrunkUID_spec_reduce r2 Hok2).
  unfold spec_reduce. rewrite (byte_sum_Permutation r1 r2 Hperm). reflexivity.
Qed.

Lemma shrunkUID_Permutation_witness :
  Permutation [xde; xad; xbe; xef] [xef; xbe; xad; xde]
  /\ uid_ok [xde; xad; xbe; xef]
  /\ shrunkUID [xde; xad; xbe; xef] = shrunkUID [xef; xbe; xad; xde].
Proof.
  assert (Permutation [xde; xad; xbe; xef] [xef; xbe; xad; xde]) as Hperm.
  { change [xef; xbe; xad; xde] with (rev [xde; xad; xbe; xef]).
    apply Permutation_rev. }
  assert (uid_ok [xde; xad; xbe; xef]) as Hok by (unfold uid_ok; cbn; lia).
  split; [exact Hperm|]. split; [exact Hok|].
  exact (shrunkUID_Permutation _ _ Hperm Hok).
Defined.

(** ** What one card does to the outputs *)

Lemma stored_iff_found (E : list byte) (c : Z) :
  stored E c <-> findEEPROMAddress E c <> -1.
Proof.
  split.
  - intros (b & Hb & Hv) Hnone.
    apply list_elem_of_In, list_elem_of_lookup in Hb as [i Hi].
    exact (findEEPROMAddress_none E c Hnone i b Hi Hv).
  - intros Hsome.
    destruct (findEEPROMAddress_found E c Hsome) as (i & _ & _ & (b & Hb & Hv) & _).
    exists b. split; [|exact Hv].
    apply list_elem_of_In. eapply list_elem_of_lookup_2. exact Hb.
Qed.

(** An action that differs from every element of an explicit list is not in
    the list. *)
Ltac not_in_actions :=
  let H := fresh "H" in
  cbn [In]; intros H;
  repeat (destruct H as [H|H]; [discriminate H|]); destruct H.

(** X5. The relay is energised during an iteration exactly when the card is
    presented in Normal mode and is a master card or holds a stored code; in
    Manage mode the relay is never energised. *)
Theorem relay_energised_iff (uid : Uid) (s : State) :
  exists l,
    trace (exec (Sketch.loop (Some uid)) s) = trace s ++ l
    /\ (In (DigitalWrite RELAY_PIN HIGH) l <->
        manageMode s = false
        /\ (is_master (shrunkUID uid) = true
            \/ stored (EEPROM s) (shrunkUID uid))).
Proof.
  unfold Sketch.loop.
  pose proof (stored_iff_found (EEPROM s) (shrunkUID uid)) as Hst.
  card_cases uid s; cbn [trace]; eexists; (split; [reflexivity|]).
  - split; [not_in_actions | intros [Hf _]; discriminate Hf].
  - split; [intros _; split; [reflexivity | left; reflexivity]|].
    intros _. cbn [In]. do 5 right. left. reflexivity.
  - split; [not_in_actions | intros [Hf _]; discriminate Hf].
  - split; [not_in_actions | intros [Hf _]; discriminate Hf].
  - split; [not_in_actions | intros [Hf _]; discriminate Hf].
  - split; [not_in_actions|].
    intros [_ [Hf|Hs]]; [discriminate Hf | apply Hst in Hs; contradiction].
  - split; [intros _; split; [reflexivity | right; apply Hst; exact Hfound]|].
    intros _. cbn [In]. do 4 right. left. reflexivity.
Qed.

(** X6. An iteration never blocks in [delay()] for more than 3000 ms. *)
Theorem iteration_delay_bound (uid : Uid) (s : State) :
  exists l,
    trace (exec (Sketch.loop (Some uid)) s) = trace s ++ l
    /\ 0 <= total_delay l <= 3000.
Proof.
  unfold Sketch.loop.
  card_cases uid s; cbn [trace]; eexists; (split; [reflexivity|]);
    cbn [total_delay]; lia.
Qed.

(** X7. Whatever branch is taken, an iteration that read a card starts by
    printing the code and ends by finalising the reader session
    ([PICC_HaltA] then [PCD_StopCrypto1]). *)
Theorem reader_session_always_finalised (uid : Uid) (s : State) :
  exists l,
    trace (exec (Sketch.loop (Some uid)) s) =
      trace s
      ++ [Serial_print "Card UID: "; Serial_println_int (shrunkUID uid)]
      ++ l ++ [PICC_HaltA; PCD_StopCrypto1].
Proof.
  unfold Sketch.loop.
  card_cases uid s; cbn [trace];
    match goal with
    | |- exists l, _ ++ ?L = _ =>
        let m := eval cbv [tl removelast] in (removelast (removelast (tl (tl L)))) in
        exists m; reflexivity
    end.
Qed.

(** ** Invariants of runs *)

Lemma loop_card_at_rest (uid : Uid) (s : State) :
  at_rest s -> at_rest (exec (loop_card uid) s).
Proof.
  unfold at_rest. intros (Hr & Hg & Hy & Hred).
  card_cases uid s;
    cbn [pins manageMode relay green_led red_led yellow_led set_pin];
    repeat split; try assumption; try reflexivity; try discriminate.
  - intros Hhigh. apply Hred in Hhigh. discriminate Hhigh.
Qed.

(** X8. From power-on, after [setup()] and any number of iterations, the
    relay, the green LED and the yellow LED are off and the red LED is on
    exactly when the controller is in Manage mode. *)
Theorem outputs_at_rest_between_iterations
    (E : list byte) (cards : list (option Uid)) :
  at_rest (Sketch.run cards (exec Sketch.setup (power_on E))).
Proof.
  assert (at_rest (exec Sketch.setup (power_on E))) as Hboot.
  { unfold at_rest. cbn. repeat split; discriminate. }
  revert Hboot. generalize (exec Sketch.setup (power_on E)) as s.
  unfold Sketch.run.
  induction cards as [|card cards IH]; intros s Hs; cbn [fold_left].
  - exact Hs.
  - apply IH. destruct card as [uid|]; [|exact Hs].
    apply loop_card_at_rest. exact Hs.
Qed.

Lemma byte_val_to_uint8_mod (z : Z) : byte_val (to_uint8 z) = z mod 256.
Proof.
  unfold to_uint8, byte_val.
  pose proof (Z.mod_pos_bound z 256 ltac:(lia)) as Hm.
  destruct (Byte.of_N (Z.to_N (z mod 256))) as [b|] eqn:Hb.
  - apply Byte.to_of_N in Hb. rewrite Hb. lia.
  - apply Byte.of_N_None_iff in Hb. lia.
Qed.

Lemma In_insert (E : list byte) (k : nat) (v b : byte) :
  In b (<[k := v]> E) -> b = v \/ In b E.
Proof.
  intros Hin. apply list_elem_of_In, list_elem_of_lookup in Hin as [i Hi].
  apply list_lookup_insert_Some in Hi as [(_ & Hv & _)|(_ & Hi)].
  - left. symmetry. exact Hv.
  - right. apply list_elem_of_In. eapply list_elem_of_lookup_2. exact Hi.
Qed.

(** The byte written for a non-master code is not a master code either,
    even when the code is negative and wraps in the conversion to
    [uint8_t]. *)
Lemma written_byte_not_master (uid : Uid) :
  is_master (shrunkUID uid) = false ->
  is_master (byte_val (to_uint8 (shrunkUID uid))) = false.
Proof.
  intros Hplain. rewrite byte_val_to_uint8_mod.
  pose proof (shrunkUID_abs uid) as Habs.
  destruct (Z.le_gt_cases 0 (shrunkUID uid)) as [Hpos|Hneg].
  - rewrite Z.mod_small by lia. exact Hplain.
  - assert (shrunkUID uid mod 256 = shrunkUID uid + 256) as ->.
    { symmetry. apply (Z.mod_unique_pos _ _ (-1)); lia. }
    unfold is_master, MASTER_UID1, MASTER_UID2, MASTER_UID3, MASTER_UID4.
    rewrite !orb_false_iff, !Z.eqb_neq. lia.
Qed.

Lemma loop_card_no_master_cell (uid : Uid) (s : State) :
  no_master_cell (EEPROM s) -> no_master_cell (EEPROM (exec (loop_card uid) s)).
Proof.
  intros Hno. card_cases uid s; cbn [EEPROM]; try exact Hno.
  - intros b Hb. apply In_insert in Hb as [->|Hb]; [|exact (Hno b Hb)].
    apply written_byte_not_master. exact Hmaster.
  - intros b Hb. apply In_insert in Hb as [->|Hb]; [|exact (Hno b Hb)].
    reflexivity.
Qed.

(** X9. Master codes are never enrolled: if no cell of the store holds a
    master code, no run of the sketch, with any cards, writes one. *)
Theorem master_codes_never_stored (cards : list (option Uid)) (s : State)
    (Hno : no_master_cell (EEPROM s)) :
  no_master_cell (EEPROM (Sketch.run cards s)).
Proof.
  revert s Hno. unfold Sketch.run.
  induction cards as [|card cards IH]; intros s Hno; cbn [fold_left].
  - exact Hno.
  - apply IH. destruct card as [uid|]; [|exact Hno].
    apply loop_card_no_master_cell. exact Hno.
Qed.

Lemma master_codes_never_stored_witness :
  let s := exec Sketch.setup (power_on [x09; x00; x00]) in
  let cards := [Some [x2b; x64; x64; x64]; Some [x07; x00; x00; x00];
                Some [x62; x00; x00; x00]; Some [x2b; x00; x00; x00]] in
  no_master_cell (EEPROM s)
  /\ EEPROM (Sketch.run cards s) = [x09; x07; x00]
  /\ no_master_cell (EEPROM (Sketch.run cards s)).
Proof.
  cbv zeta.
  assert (no_master_cell (EEPROM (exec Sketch.setup (power_on [x09; x00; x00]))))
    as Hno.
  { intros b Hb. cbn in Hb.
    destruct Hb as [<-|[<-|[<-|[]]]]; reflexivity. }
  split; [exact Hno|]. split; [reflexivity|].
  exact (master_codes_never_stored _ _ Hno).
Defined.

Lemma loop_card_erased (uid : Uid) (s : State) :
  (forall b, In b (EEPROM s) -> 100 <= byte_val b) ->
  EEPROM (exec (loop_card uid) s) = EEPROM s.
Proof.
  intros Hhigh. pose proof (shrunkUID_abs uid) as Habs.
  card_cases uid s; cbn [EEPROM]; try reflexivity; exfalso.
  - apply Hroom. apply findEmptyEEPROMAddress_full.
    intros b Hb ->. specialize (Hhigh _ Hb). cbn in Hhigh. lia.
  - apply Hfound. apply findEEPROMAddress_absent.
    intros b Hb Hv. specialize (Hhigh _ Hb). lia.
Qed.

(** X10. A store in which every cell holds a value of at least 100, such as
    a factory-erased EEPROM (all cells [0xFF]), never changes: no cell is
    empty and no code matches, so no card is ever added or removed. *)
Theorem erased_store_never_changes (cards : list (option Uid)) (s : State)
    (Hhigh : forall b, In b (EEPROM s) -> 100 <= byte_val b) :
  EEPROM (Sketch.run cards s) = EEPROM s.
Proof.
  revert s Hhigh. unfold Sketch.run.
  induction cards as [|card cards IH]; intros s Hhigh; cbn [fold_left].
  - reflexivity.
  - destruct card as [uid|]; [|apply IH; exact Hhigh].
    pose proof (loop_card_erased uid s Hhigh) as Hsame.
    unfold Sketch.loop. rewrite IH; [exact Hsame|].
    rewrite Hsame. exact Hhigh.
Qed.

Lemma erased_store_never_changes_witness :
  let s := exec Sketch.setup (power_on (repeat xff 4)) in
  let cards := [Some [x2b; x64; x64; x64]; Some [x07; x00; x00; x00];
                Some [x07; x00; x00; x00]] in
  (forall b, In b (EEPROM s) -> 100 <= byte_val b)
  /\ EEPROM (Sketch.run cards s) = repeat xff 4
  /\ In (Serial_println "EEPROM is full. Cannot add more cards.")
        (trace (Sketch.run cards s)).
Proof.
  cbv zeta.
  assert (forall b, In b (EEPROM (exec Sketch.setup (power_on (repeat xff 4)))) ->
                    100 <= byte_val b) as Hhigh.
  { intros b Hb. cbn in Hb.
    destruct Hb as [<-|[<-|[<-|[<-|[]]]]]; vm_compute; discriminate. }
  split; [exact Hhigh|]. split.
  - exact (erased_store_never_changes _ _ Hhigh).
  - vm_compute. do 18 right. left. reflexivity.
Defined.

(** X11. A card whose code is 0 can never be enrolled nor change the store:
    in Manage mode its "removal" overwrites an empty cell with 0, or the
    store is reported full. *)
Theorem zero_code_never_changes_store (uid : Uid) (s : State)
    (Hzero : shrunkUID uid = 0) :
  EEPROM (exec (Sketch.loop (Some uid)) s) = EEPROM s.
Proof.
  unfold Sketch.loop.
  card_cases uid s; cbn [EEPROM]; try reflexivity.
  - exfalso. apply Hroom. rewrite findEmpty_as_find, <- Hzero. exact Habsent.
  - destruct (findEEPROMAddress_found _ _ Hfound)
      as (i & Hr & _ & (b & Hb & Hv) & _).
    rewrite Hzero in Hv. apply byte_val_zero in Hv. subst b.
    unfold EEPROM_write. rewrite Hr, Nat2Z.id.
    change (to_uint8 0) with x00. apply list_insert_id. exact Hb.
Qed.

Lemma zero_code_never_changes_store_witness :
  shrunkUID [x19; x19; x19; x19] = 0
  /\ EEPROM (exec (Sketch.loop (Some [x19; x19; x19; x19]))
               (mkState true false 0 [x07; x00; x09] (mkPins LOW LOW HIGH LOW) []))
     = [x07; x00; x09].
Proof.
  split; [reflexivity|].
  exact (zero_code_never_changes_store [x19; x19; x19; x19]
           (mkState true false 0 [x07; x00; x09] (mkPins LOW LOW HIGH LOW) [])
           eq_refl).
Defined.

(** ** Enrolment and removal, seen from the door *)

(** X12. Enrolment round trip: a card with a non-master code that is not
    stored, presented in Manage mode while a slot is free, is written to the
    first empty slot (the slot printed on the serial line), all other slots
    are untouched, the mode returns to Normal, and the same card presented
    next is granted. *)
Theorem enrolled_card_is_granted (uid : Uid) (s : State)
    (Hok : uid_ok uid)
    (Hmode : manageMode s = true)
    (Hplain : is_master (shrunkUID uid) = false)
    (Hnew : ~ stored (EEPROM s) (shrunkUID uid))
    (Hroom : In x00 (EEPROM s)) :
  let s1 := exec (Sketch.loop (Some uid)) s in
  manageMode s1 = false
  /\ (exists i : nat,
        findEmptyEEPROMAddress (EEPROM s) = Z.of_nat i
        /\ EEPROM s1 !! i = Some (to_uint8 (shrunkUID uid))
        /\ byte_val (to_uint8 (shrunkUID uid)) = shrunkUID uid
        /\ (forall k, k <> i -> EEPROM s1 !! k = EEPROM s !! k)
        /\ In (Serial_println_int (Z.of_nat i)) (trace s1))
  /\ trace (exec (Sketch.loop (Some uid)) s1) = trace s1 ++
       [Serial_print "Card UID: "; Serial_println_int (shrunkUID uid);
        Serial_println "Access granted.";
        DigitalWrite GREEN_LED_PIN HIGH; DigitalWrite RELAY_PIN HIGH;
        Delay 3000;
        DigitalWrite RELAY_PIN LOW; DigitalWrite GREEN_LED_PIN LOW;
        PICC_HaltA; PCD_StopCrypto1].
Proof.
  cbv zeta. unfold Sketch.loop.
  pose proof (shrunkUID_range uid Hok) as Hrange.
  assert (byte_val (to_uint8 (shrunkUID uid)) = shrunkUID uid) as Hval
    by (apply byte_val_to_uint8; lia).
  assert (findEEPROMAddress (EEPROM s) (shrunkUID uid) = -1) as Habsent.
  { destruct (Z.eq_dec (findEEPROMAddress (EEPROM s) (shrunkUID uid)) (-1))
      as [|Hne]; [assumption|].
    exfalso. apply Hnew, stored_iff_found, Hne. }
  pose proof (findEmptyEEPROMAddress_room (EEPROM s) Hroom) as Hfree.
  assert (exists i : nat, findEmptyEEPROMAddress (EEPROM s) = Z.of_nat i
            /\ (i < length (EEPROM s))%nat) as (i & Hi & Hlt).
  { rewrite findEmpty_as_find in Hfree |- *.
    destruct (findEEPROMAddress_found (EEPROM s) 0 Hfree) as (i & Hr & Hlt & _).
    exists i. split; assumption. }
  rewrite (loop_card_add uid s Hplain Hmode Habsent Hfree).
  set (s1 := mkState _ _ _ _ _ _).
  assert (EEPROM s1 = <[i := to_uint8 (shrunkUID uid)]> (EEPROM s)) as HE1.
  { unfold s1. cbn [EEPROM]. unfold EEPROM_write. rewrite Hi, Nat2Z.id. reflexivity. }
  split; [reflexivity|]. split.
  - exists i. split; [exact Hi|]. rewrite HE1.
    split; [apply list_lookup_insert_eq; exact Hlt|].
    split; [exact Hval|]. split.
    + intros k Hk. apply list_lookup_insert_ne. congruence.
    + unfold s1. cbn [trace]. rewrite Hi. apply in_or_app. right.
      cbn [In]. do 3 right. left. reflexivity.
  - rewrite loop_card_grant; [reflexivity | exact Hplain | reflexivity |].
    apply stored_iff_found. exists (to_uint8 (shrunkUID uid)).
    split; [|exact Hval]. rewrite HE1.
    apply list_elem_of_In. eapply list_elem_of_lookup_2.
    apply list_lookup_insert_eq. exact Hlt.
Qed.

(** Scenario B of the specification. *)
Lemma enrolled_card_is_granted_witness :
  let s := mkState true false 0 (repeat x00 10) (mkPins LOW LOW HIGH LOW) [] in
  let uid := [x07; x00; x00; x00] in
  uid_ok uid
  /\ manageMode s = true
  /\ is_master (shrunkUID uid) = false
  /\ ~ stored (EEPROM s) (shrunkUID uid)
  /\ In x00 (EEPROM s)
  /\ manageMode (exec (Sketch.loop (Some uid)) s) = false.
Proof.
  cbv zeta.
  assert (uid_ok [x07; x00; x00; x00]) as Hok by (unfold uid_ok; cbn; lia).
  assert (~ stored (repeat x00 10) (shrunkUID [x07; x00; x00; x00])) as Hnew.
  { intros (b & Hb & Hv). apply repeat_spec in Hb. subst b. discriminate Hv. }
  assert (In x00 (repeat x00 10)) as Hroom by (cbn; tauto).
  split; [exact Hok|]. split; [reflexivity|]. split; [reflexivity|].
  split; [exact Hnew|]. split; [exact Hroom|].
  exact (proj1 (enrolled_card_is_granted [x07; x00; x00; x00]
           (mkState true false 0 (repeat x00 10) (mkPins LOW LOW HIGH LOW) [])
           Hok eq_refl eq_refl Hnew Hroom)).
Defined.

(** X13. Removal round trip: on a store satisfying exclusivity, a stored
    non-zero, non-master code presented in Manage mode is erased from the
    store, the mode returns to Normal, and the same card presented next is
    denied. *)
Theorem removed_card_is_denied (uid : Uid) (s : State)
    (Hmode : manageMode s = true)
    (Hplain : is_master (shrunkUID uid) = false)
    (Hex : exclusive (EEPROM s))
    (Hnz : shrunkUID uid <> 0)
    (Hst : stored (EEPROM s) (shrunkUID uid)) :
  let s1 := exec (Sketch.loop (Some uid)) s in
  manageMode s1 = false
  /\ ~ stored (EEPROM s1) (shrunkUID uid)
  /\ trace (exec (Sketch.loop (Some uid)) s1) = trace s1 ++
       [Serial_print "Card UID: "; Serial_println_int (shrunkUID uid);
        Serial_println "Access denied.";
        DigitalWrite RED_LED_PIN HIGH; Delay 2000;
        DigitalWrite RED_LED_PIN LOW;
        PICC_HaltA; PCD_StopCrypto1].
Proof.
  cbv zeta. unfold Sketch.loop.
  assert (findEEPROMAddress (EEPROM s) (shrunkUID uid) <> -1) as Hfound
    by (apply stored_iff_found; exact Hst).
  destruct (findEEPROMAddress_found _ _ Hfound) as (i & Hi & Hlt & (b & Hb & Hv) & _).
  rewrite (loop_card_remove uid s Hplain Hmode Hfound).
  set (s1 := mkState _ _ _ _ _ _).
  assert (EEPROM s1 = <[i := x00]> (EEPROM s)) as HE1.
  { unfold s1. cbn [EEPROM]. unfold EEPROM_write. rewrite Hi, Nat2Z.id. reflexivity. }
  assert (~ stored (EEPROM s1) (shrunkUID uid)) as Hgone.
  { rewrite HE1. intros (b' & Hb' & Hv').
    apply list_elem_of_In, list_elem_of_lookup in Hb' as [j Hj].
    apply list_lookup_insert_Some in Hj as [(_ & Hz & _)|(Hij & Hj)].
    - subst b'. apply Hnz. rewrite <- Hv'. reflexivity.
    - assert (b' = b) as -> by (apply byte_val_inj; congruence).
      assert (b = x00) as -> by (apply (Hex i j b Hij Hb Hj)).
      apply Hnz. rewrite <- Hv. reflexivity. }
  split; [reflexivity|]. split; [exact Hgone|].
  rewrite loop_card_deny; [reflexivity | exact Hplain | reflexivity |].
  destruct (Z.eq_dec (findEEPROMAddress (EEPROM s1) (shrunkUID uid)) (-1))
    as [|Hne]; [assumption|].
  exfalso. apply Hgone, stored_iff_found, Hne.
Qed.

(** Scenario C of the specification. *)
Lemma removed_card_is_denied_witness :
  let s := mkState true false 0 [x09; x07; x00] (mkPins LOW LOW HIGH LOW) [] in
  let uid := [x07; x00; x00; x00] in
  manageMode s = true
  /\ is_master (shrunkUID uid) = false
  /\ exclusive (EEPROM s)
  /\ shrunkUID uid <> 0
  /\ stored (EEPROM s) (shrunkUID uid)
  /\ EEPROM (exec (Sketch.loop (Some uid)) s) = [x09; x00; x00]
  /\ ~ stored (EEPROM (exec (Sketch.loop (Some uid)) s)) (shrunkUID uid).
Proof.
  cbv zeta.
  assert (exclusive [x09; x07; x00]) as Hex.
  { intros i j b Hij Hi Hj.
    destruct i as [|[|[|i]]]; destruct j as [|[|[|j]]]; cbn in Hi, Hj;
      try congruence; try discriminate. }
  assert (shrunkUID [x07; x00; x00; x00] <> 0) as Hnz by (vm_compute; discriminate).
  assert (stored [x09; x07; x00] (shrunkUID [x07; x00; x00; x00])) as Hst.
  { exists x07. split; [cbn; tauto | reflexivity]. }
  split; [reflexivity|]. split; [reflexivity|]. split; [exact Hex|].
  split; [exact Hnz|]. split; [exact Hst|]. split; [reflexivity|].
  exact (proj1 (proj2 (removed_card_is_denied [x07; x00; x00; x00]
           (mkState true false 0 [x09; x07; x00] (mkPins LOW LOW HIGH LOW) [])
           eq_refl eq_refl Hex Hnz Hst))).
Defined.

(** ** The README listing against the sketch *)



(** ** The inactivity test *)

(** X15. The test [millis() - lastActivityTime >= 1800000] is exact across
    the wrap-around of the 32-bit millisecond counter: as long as less than
    2^32 ms separate the two readings, it holds exactly when at least 30
    minutes have elapsed. *)
Theorem inactivity_test_exact_across_wrap (T0 T : Z)
    (Hmono : T0 <= T) (Hspan : T - T0 < 4294967296) :
  Readme.inactive (millis T) (millis T0) = true <-> 1800000 <= T - T0.
Proof.
  unfold Readme.inactive. rewrite millis_elapsed, Z.mod_small by lia.
  apply Z.leb_le.
Qed.

Lemma inactivity_test_exact_across_wrap_witness :
  4294966296 <= 4296767296
  /\ 4296767296 - 4294966296 < 4294967296
  /\ millis 4296767296 = 1800000
  /\ millis 4294966296 = 4294966296
  /\ Readme.inactive 1800000 4294966296 = true.
Proof.
  split; [lia|]. split; [lia|]. split; [reflexivity|]. split; [reflexivity|].
  apply (inactivity_test_exact_across_wrap 4294966296 4296767296); lia.
Defined.



(** X17. Reading a card re-arms the inactivity timer whatever happened
    before: after an iteration that read a card at reading [t], an iteration
    without card whose test finds less than 30 minutes since [t] does
    nothing at all. *)
Theorem card_rearms_inactivity_timer
    (now t now2 : Z) (uid : Uid) (s : State)
    (Hrecent : Readme.inactive now2 t = false) :
  let s1 := exec (Readme.loop now (Some (t, uid))) s in
  lastActivityTime s1 = t
  /\ activityFlag s1 = true
  /\ exec (Readme.loop now2 None) s1 = s1.
Proof.
  cbv zeta.
  pose proof (Readme_loop_timestamp now (Some (t, uid)) s) as Hstamp.
  cbn in Hstamp. split; [exact Hstamp|]. split.
  - rewrite Readme_loop_card.
    match goal with |- context [exec (loop_card uid) ?st] =>
      destruct (loop_card_frame uid st) as (-> & _ & _)
    end.
    reflexivity.
  - rewrite Readme_loop_idle, Hstamp, Hrecent. reflexivity.
Qed.

Lemma card_rearms_inactivity_timer_witness :
  let s := exec Readme.setup (power_on (repeat x00 10)) in
  Readme.inactive 3600000 1800001 = false
  /\ lastActivityTime
       (exec (Readme.loop 1800000 (Some (1800001, [x07; x00; x00; x00]))) s)
     = 1800001.
Proof.
  cbv zeta. split; [reflexivity|].
  exact (proj1 (card_rearms_inactivity_timer 1800000 1800001 3600000
           [x07; x00; x00; x00]
           (exec Readme.setup (power_on (repeat x00 10))) eq_refl)).
Defined.

(** ** What the store holds *)

Lemma loop_card_codes_only (uid : Uid) (s : State) :
  uid_ok uid -> codes_only (EEPROM s) -> codes_only (EEPROM (exec (loop_card uid) s)).
Proof.
  intros Hok Hcodes. pose proof (shrunkUID_range uid Hok) as Hrange.
  card_cases uid s; cbn [EEPROM]; try exact Hcodes.
  - intros b Hb. apply In_insert in Hb as [->|Hb]; [|exact (Hcodes b Hb)].
    rewrite byte_val_to_uint8; lia.
  - intros b Hb. apply In_insert in Hb as [->|Hb]; [|exact (Hcodes b Hb)].
    change (byte_val (to_uint8 0)) with 0. lia.
Qed.

(** X18. The store only ever holds credential codes: if every cell holds a
    value in [0, 99], then after any run with cards that fit the reader's
    buffer every cell still does, and the number of cells is unchanged. *)
Theorem store_holds_only_codes (cards : list (option Uid)) (s : State)
    (Hcards : cards_ok cards)
    (Hcodes : codes_only (EEPROM s)) :
  codes_only (EEPROM (Sketch.run cards s))
  /\ length (EEPROM (Sketch.run cards s)) = length (EEPROM s).
Proof.
  revert s Hcodes. unfold Sketch.run.
  induction cards as [|card cards IH]; intros s Hcodes; cbn [fold_left].
  - split; [exact Hcodes | reflexivity].
  - assert (cards_ok cards) as Hrest
      by (intros uid Hin; apply Hcards; right; exact Hin).
    destruct card as [uid|]; [|exact (IH Hrest s Hcodes)].
    assert (uid_ok uid) as Hok by (apply Hcards; left; reflexivity).
    destruct (IH Hrest (exec (Sketch.loop (Some uid)) s)) as [Hc Hl].
    { apply loop_card_codes_only; assumption. }
    split; [exact Hc|]. rewrite Hl. unfold Sketch.loop.
    card_cases uid s; cbn [EEPROM]; try reflexivity;
      unfold EEPROM_write; apply length_insert.
Qed.

Lemma store_holds_only_codes_witness :
  let s := exec Sketch.setup (power_on [x09; x00; x00]) in
  let cards := [Some [x2b; x64; x64; x64]; Some [xff; xff; xff; xff]] in
  cards_ok cards
  /\ codes_only (EEPROM s)
  /\ EEPROM (Sketch.run cards s) = [x09; x14; x00]
  /\ codes_only (EEPROM (Sketch.run cards s)).
Proof.
  cbv zeta.
  assert (cards_ok [Some [x2b; x64; x64; x64]; Some [xff; xff; xff; xff]]) as Hcards.
  { intros uid Hin. unfold uid_ok. cbn [In] in Hin.
    repeat (destruct Hin as [Hin|Hin]; [injection Hin as <-; cbn; lia|]).
    destruct Hin. }
  assert (codes_only (EEPROM (exec Sketch.setup (power_on [x09; x00; x00])))) as Hcodes.
  { intros b Hb. cbn in Hb.
    destruct Hb as [<-|[<-|[<-|[]]]]; vm_compute; discriminate. }
  split; [exact Hcards|]. split; [exact Hcodes|]. split; [reflexivity|].
  exact (proj1 (store_holds_only_codes _ _ Hcards Hcodes)).
Defined.
